(** * Branch reconciliation over a fleet of repositories

    A shallow embedding of [src/make-ros2-branches-consistent.ts].

    The script talks to the outside world through imported helpers
    (the hosting API, git, the file system).  Those helpers are taken as
    an oracle, [World]: each one answers a call from the history of
    everything the run has done so far, either by returning a value or by
    throwing.  The script itself becomes a computation in a state and
    exception monad whose state holds the observable trace (remote calls
    and console lines, in order), the [errors] array and the in-memory
    distribution manifest. *)

From Stdlib Require Import Ascii String.
From stdpp Require Import base option list strings gmap.

Open Scope string_scope.
Open Scope list_scope.
Open Scope stdpp_scope.

(** ** Data *)

(** One entry of the repository list ([getRepos]). *)
Record Repo := mkRepo {
  org : string;
  name : string;
  url : string;
  version : string;
}.

(** Whatever a [catch] clause can receive: an [Error] object, of which the
    script reads [message], or any other thrown value, which the template
    literal renders as a string. *)
Inductive exn :=
| ErrorObject (message : string)
| Thrown (rendering : string).

Inductive Result (A : Type) :=
| Returns (a : A)
| Throws (e : exn).
Arguments Returns {A} a.
Arguments Throws {A} e.

(** The imported helpers, with the arguments the script passes. *)
Inductive call :=
| MakeCacheDir (path : string) (isForceRefresh : bool)
| DownloadFile (url path : string)
| GetRepos (path : string)
| GetDistributionFile (path : string)
| GetDefaultBranch (org name : string)
| PullGitRepo (url destinationPath version : string)
| ExistsSync (path : string)
| CreateCommitAndPushFile
    (repoPath filePath fileContent commitMessage : string) (isDryRun : bool)
| CreateNewBranch (org name baseBranch newBranchName : string)
| SetDefaultBranch (org name branch : string)
| RetargetPrs (org name fromBranch toBranch : string)
| WriteFileSync (path content : string).

Inductive value :=
| VVoid
| VBool (b : bool)
| VString (s : string)
| VRepos (repos : list Repo)
| VDistribution (d : gmap string string).

Inductive reply :=
| Returned (v : value)
| Threw (e : exn).

Inductive event :=
| EvCall (c : call) (r : reply)
| EvLog (line : string).

Definition History := list event.

Definition replyOf {A : Type} (inj : A -> value) (r : Result A) : reply :=
  match r with
  | Returns a => Returned (inj a)
  | Throws e => Threw e
  end.

(** The outside world.  [w_join], [w_endent], [w_toReposFile] and
    [w_toDistributionFile] are pure: [path.join], the [endent] template
    tag (given the literal chunks of a template and its interpolated
    values) and the two serialisers.  The others see the history of the
    run. *)
Record World := mkWorld {
  w_join : list string -> string;
  w_endent : list string -> list string -> string;
  w_toReposFile : list Repo -> string;
  w_toDistributionFile : gmap string string -> string;
  w_makeCacheDir : History -> string -> bool -> Result unit;
  w_downloadFile : History -> string -> string -> Result unit;
  w_getRepos : History -> string -> Result (list Repo);
  w_getDistributionFile : History -> string -> Result (gmap string string);
  w_getDefaultBranch : History -> string -> string -> Result string;
  w_pullGitRepo : History -> string -> string -> string -> Result string;
  w_existsSync : History -> string -> bool;
  w_createCommitAndPushFile :
    History -> string -> string -> string -> string -> bool -> Result string;
  w_createNewBranch :
    History -> string -> string -> string -> string -> Result unit;
  w_setDefaultBranch : History -> string -> string -> string -> Result unit;
  w_retargetPrs :
    History -> string -> string -> string -> string -> Result unit;
  w_writeFileSync : History -> string -> string -> Result unit;
}.

(** The arguments of [makeRos2BranchesConsistent]; the last three are
    optional in the source. *)
Record Options := mkOptions {
  newBranch : string;
  reposBranch : string;
  rosDistroDirectory : string;
  reposToExclude : list string;
  cacheDir : option string;
  isDryRun : option bool;
  isForceRefresh : option bool;
}.

(** ** The monad *)

Record State := mkState {
  trace : History;
  errors : list string;
  distribution : gmap string string;
}.

Definition M (A : Type) : Type := State -> Result A * State.

Definition ret {A : Type} (a : A) : M A := fun st => (Returns a, st).

Definition bind {A B : Type} (m : M A) (k : A -> M B) : M B :=
  fun st =>
    match m st with
    | (Returns a, st') => k a st'
    | (Throws e, st') => (Throws e, st')
    end.

(** [try { m } catch (e) { h e }] *)
Definition tryCatch {A : Type} (m : M A) (h : exn -> M A) : M A :=
  fun st =>
    match m st with
    | (Returns a, st') => (Returns a, st')
    | (Throws e, st') => h e st'
    end.

Declare Scope monad_scope.
Delimit Scope monad_scope with monad.
Notation "x <- m ;; k" := (bind m (fun x => k))
  (at level 20, m at level 99, k at level 200, only parsing) : monad_scope.
Notation "m ;; k" := (bind m (fun _ => k))
  (at level 100, k at level 200, right associativity, only parsing)
  : monad_scope.
Open Scope monad_scope.

Definition record (ev : event) (st : State) : State :=
  {| trace := trace st ++ [ev];
     errors := errors st;
     distribution := distribution st |}.

(** Performing a helper call: the world's answer is recorded, then
    returned or thrown. *)
Definition perform {A : Type} (c : call) (inj : A -> value)
    (answer : History -> Result A) : M A :=
  fun st =>
    let r := answer (trace st) in
    (r, record (EvCall c (replyOf inj r)) st).

Definition consoleLog (line : string) : M unit :=
  fun st => (Returns tt, record (EvLog line) st).

(** [errors.push(message)] *)
Definition pushError (message : string) : M unit :=
  fun st =>
    (Returns tt,
     {| trace := trace st;
        errors := errors st ++ [message];
        distribution := distribution st |}).

(** Modelled from the spec: the setter of the distribution-file module,
    which is not among the sources.  It pins [repoName] to [newVersion]
    and fails when the manifest has no entry of that name; the only caller
    discards the thrown value. *)
Definition setDistributionVersion (repoName newVersion : string) : M unit :=
  fun st =>
    match distribution st !! repoName with
    | Some _ =>
        (Returns tt,
         {| trace := trace st;
            errors := errors st;
            distribution := <[repoName := newVersion]> (distribution st) |})
    | None => (Throws (ErrorObject "repository not in distribution"), st)
    end.

(** ** The script *)

Definition nl : string := String "010"%char "".

(** [e instanceof Error ? e.message : e], as interpolated into a
    template literal. *)
Definition describe (e : exn) : string :=
  match e with
  | ErrorObject message => message
  | Thrown rendering => rendering
  end.

(** [reposToExclude.includes(key)] *)
Definition includes (l : list string) (key : string) : bool :=
  bool_decide (key ∈ l).

Definition workflowFileName (oldBranch newBranch : string) : string :=
  "mirror-" +:+ newBranch +:+ "-to-" +:+ oldBranch +:+ ".yaml".

(** The literal chunks of the template of [pushMirrorWorkflow], as the
    [endent] tag receives them: the text between two interpolations, line
    breaks and indentation included. *)
Definition workflowTemplate : list string :=
  ["
      name: Mirror ";
   " to ";
   "

      on:
        push:
          branches: [ ";
   " ]

      jobs:
        mirror-to-";
   ":
          runs-on: ubuntu-latest
          steps:
          - uses: zofrex/mirror-branch@v1
            with:
              target-branch: ";
   "
    "].

Definition mirrorCommitMessage (oldBranch newBranch : string) : string :=
  "Mirror " +:+ newBranch +:+ " to " +:+ oldBranch.

Definition setVersion (repo : Repo) (v : string) : Repo :=
  {| org := org repo; name := name repo; url := url repo; version := v |}.

Section Script.

Variable w : World.

Definition join : list string -> string := w_join w.

(** [endent`...`] in [pushMirrorWorkflow]: the tag applied to the
    template and to the five interpolated values, in their order. *)
Definition migrationWorkflowFileContent (oldBranch newBranch : string)
  : string :=
  w_endent w workflowTemplate
    [newBranch; oldBranch; newBranch; oldBranch; oldBranch].

Definition makeCacheDir (path : string) (isForceRefresh : bool) : M unit :=
  perform (MakeCacheDir path isForceRefresh) (fun _ => VVoid)
    (fun h => w_makeCacheDir w h path isForceRefresh).

Definition downloadFile (url path : string) : M unit :=
  perform (DownloadFile url path) (fun _ => VVoid)
    (fun h => w_downloadFile w h url path).

Definition getRepos (path : string) : M (list Repo) :=
  perform (GetRepos path) VRepos (fun h => w_getRepos w h path).

Definition getDistributionFile (path : string) : M (gmap string string) :=
  perform (GetDistributionFile path) VDistribution
    (fun h => w_getDistributionFile w h path).

Definition getDefaultBranch (org name : string) : M string :=
  perform (GetDefaultBranch org name) VString
    (fun h => w_getDefaultBranch w h org name).

Definition pullGitRepo (url destinationPath version : string) : M string :=
  perform (PullGitRepo url destinationPath version) VString
    (fun h => w_pullGitRepo w h url destinationPath version).

Definition existsSync (path : string) : M bool :=
  perform (ExistsSync path) VBool (fun h => Returns (w_existsSync w h path)).

Definition createCommitAndPushFile
    (repoPath filePath fileContent commitMessage : string) (isDryRun : bool)
  : M string :=
  perform
    (CreateCommitAndPushFile repoPath filePath fileContent commitMessage
       isDryRun)
    VString
    (fun h =>
       w_createCommitAndPushFile w h repoPath filePath fileContent
         commitMessage isDryRun).

Definition createNewBranch (org name baseBranch newBranchName : string)
  : M unit :=
  perform (CreateNewBranch org name baseBranch newBranchName)
    (fun _ => VVoid)
    (fun h => w_createNewBranch w h org name baseBranch newBranchName).

Definition setDefaultBranch (org name branch : string) : M unit :=
  perform (SetDefaultBranch org name branch) (fun _ => VVoid)
    (fun h => w_setDefaultBranch w h org name branch).

Definition retargetPrs (org name fromBranch toBranch : string) : M unit :=
  perform (RetargetPrs org name fromBranch toBranch) (fun _ => VVoid)
    (fun h => w_retargetPrs w h org name fromBranch toBranch).

Definition writeFileSync (path content : string) : M unit :=
  perform (WriteFileSync path content) (fun _ => VVoid)
    (fun h => w_writeFileSync w h path content).

Definition logSubItem (message : string) : M unit :=
  consoleLog (" - " +:+ message).

Definition logSubItemError (message : string) : M unit :=
  logSubItem ("ERROR: " +:+ message).

Definition migrationWorkflowFilePath (repoPath oldBranch newBranch : string)
  : string :=
  join [repoPath; ".github"; "workflows"; workflowFileName oldBranch newBranch].

Definition pushMirrorWorkflow
    (oldBranch newBranch repoPath : string) (isDryRun : bool) : M unit :=
  let migrationWorkflowFilePath :=
    migrationWorkflowFilePath repoPath oldBranch newBranch in
  present <- existsSync migrationWorkflowFilePath ;;
  message <-
    (if (present : bool) then
       ret ("Doing nothing - Workflow file already exists: "
            +:+ migrationWorkflowFilePath)
     else
       createCommitAndPushFile repoPath migrationWorkflowFilePath
         (migrationWorkflowFileContent oldBranch newBranch)
         (mirrorCommitMessage oldBranch newBranch) isDryRun) ;;
  logSubItem message.

Definition changeDefaultBranchAndRetargetPrs
    (oldBranch newBranch repoOrg repoName : string) (isDryRun : bool)
  : M unit :=
  message <-
    (if negb isDryRun then
       createNewBranch repoOrg repoName oldBranch newBranch ;;
       setDefaultBranch repoOrg repoName newBranch ;;
       retargetPrs repoOrg repoName oldBranch newBranch ;;
       ret ("Updated " +:+ repoOrg +:+ "/" +:+ repoName
            +:+ " default branch from " +:+ oldBranch +:+ " to "
            +:+ newBranch +:+ " and retargetted PRs")
     else
       ret ("Would create a new branch " +:+ newBranch +:+ " from "
            +:+ oldBranch +:+ " and retarget PRs")) ;;
  logSubItem message.

Section Loop.

Variables (newBranch reposBranch : string) (reposToExclude : list string).
Variables (cacheDir : string) (isDryRun : bool).

(** The body of the [for (const repo of repos)] loop; the result is the
    repository record as the iteration leaves it. *)
Definition reconcileRepo (repo : Repo) : M Repo :=
  if includes reposToExclude (org repo +:+ "/" +:+ name repo) then
    consoleLog ("Skipping " +:+ org repo +:+ "/" +:+ name repo
                +:+ " since it is on the exclude list") ;;
    ret repo
  else
    oldBranch <- getDefaultBranch (org repo) (name repo) ;;
    if bool_decide (oldBranch <> newBranch) then
      consoleLog ("Processing " +:+ org repo +:+ "/" +:+ name repo) ;;
      let repoPath := join [cacheDir; reposBranch; org repo; name repo] in
      pullMessage <- pullGitRepo (url repo) repoPath (version repo) ;;
      logSubItem pullMessage ;;
      tryCatch (pushMirrorWorkflow oldBranch newBranch repoPath isDryRun)
        (fun e =>
           let message :=
             "Error changing default branch and retargetting PRs on "
             +:+ org repo +:+ "/" +:+ name repo +:+ ": " +:+ describe e in
           logSubItemError message ;;
           pushError message) ;;
      tryCatch
        (changeDefaultBranchAndRetargetPrs oldBranch newBranch (org repo)
           (name repo) isDryRun)
        (fun e =>
           let message :=
             "Error changing default branch and retargetting PRs on "
             +:+ org repo +:+ "/" +:+ name repo +:+ ": " +:+ describe e in
           logSubItemError message ;;
           pushError message) ;;
      let repo := setVersion repo newBranch in
      tryCatch (setDistributionVersion (name repo) newBranch)
        (fun _ =>
           logSubItem ("Could not update distribution.yaml, since "
                       +:+ org repo +:+ "/" +:+ name repo
                       +:+ " is not in the distribution.yaml")) ;;
      ret repo
    else
      logSubItem ("Doing nothing - " +:+ org repo +:+ "/" +:+ name repo
                  +:+ " already has the default branch " +:+ reposBranch) ;;
      ret repo.

Fixpoint reconcileRepos (repos : list Repo) : M (list Repo) :=
  match repos with
  | [] => ret []
  | repo :: rest =>
      repo' <- reconcileRepo repo ;;
      rest' <- reconcileRepos rest ;;
      ret (repo' :: rest')
  end.

End Loop.

(** [const errors = []] and the parsed distribution file become the
    run's mutable state. *)
Definition initLoopState (d : gmap string string) : M unit :=
  fun st =>
    (Returns tt, {| trace := trace st; errors := []; distribution := d |}).

Definition getState : M State := fun st => (Returns st, st).

Fixpoint forEach {A : Type} (f : A -> M unit) (l : list A) : M unit :=
  match l with
  | [] => ret tt
  | x :: rest => f x ;; forEach f rest
  end.

(** The closing report. *)
Definition printSummary : M unit :=
  st <- getState ;;
  if bool_decide (0 < length (errors st)) then
    consoleLog "Finished with errors:" ;;
    forEach logSubItem (errors st)
  else
    consoleLog "Done! - No errors".

Definition makeRos2BranchesConsistent (o : Options) : M unit :=
  let newBranch := newBranch o in
  let reposBranch := reposBranch o in
  let rosDistroDirectory := rosDistroDirectory o in
  let cacheDir := default ".cache" (cacheDir o) in
  let isDryRun := default true (isDryRun o) in
  let isForceRefresh := default false (isForceRefresh o) in
  makeCacheDir cacheDir isForceRefresh ;;
  let reposYamlPath :=
    join [cacheDir; "ros2.repos." +:+ reposBranch +:+ ".yaml"] in
  let outputReposYamlPath :=
    join [cacheDir; "ros2.repos." +:+ reposBranch +:+ ".output.yaml"] in
  let reposYamlUrl :=
    "https://raw.githubusercontent.com/ros2/ros2/" +:+ reposBranch
    +:+ "/ros2.repos" in
  downloadFile reposYamlUrl reposYamlPath ;;
  repos <- getRepos reposYamlPath ;;
  let rosDistroYamlPath :=
    join [cacheDir; "distribution." +:+ rosDistroDirectory +:+ ".yaml"] in
  let outputRosDistroYamlPath :=
    join [cacheDir; "distribution." +:+ rosDistroDirectory +:+ ".output.yaml"]
  in
  let rosDistroYamlUrl :=
    "https://raw.githubusercontent.com/ros/rosdistro/master/"
    +:+ rosDistroDirectory +:+ "/distribution.yaml" in
  downloadFile rosDistroYamlUrl rosDistroYamlPath ;;
  parsed <- getDistributionFile rosDistroYamlPath ;;
  initLoopState parsed ;;
  repos <-
    reconcileRepos newBranch reposBranch (reposToExclude o) cacheDir isDryRun
      repos ;;
  let newReposFile := w_toReposFile w repos in
  writeFileSync outputReposYamlPath newReposFile ;;
  st <- getState ;;
  let newDistributionFile := w_toDistributionFile w (distribution st) in
  writeFileSync outputRosDistroYamlPath newDistributionFile ;;
  printSummary.

End Script.

(** ** Reading a run *)

(** What a run from [st] to [st'] adds to the trace. *)
Definition emitted (st st' : State) : list event :=
  drop (length (trace st)) (trace st').

Definition callOf (ev : event) : option call :=
  match ev with
  | EvCall c _ => Some c
  | EvLog _ => None
  end.

Definition lineOf (ev : event) : option string :=
  match ev with
  | EvCall _ _ => None
  | EvLog line => Some line
  end.

Definition callsOf (evs : list event) : list call := omap callOf evs.

Definition linesOf (evs : list event) : list string := omap lineOf evs.

(** The calls that change the remote: branch creation, default-branch
    change, pull-request retargeting, commit and push. *)
Definition isMutation (c : call) : bool :=
  match c with
  | CreateCommitAndPushFile _ _ _ _ _
  | CreateNewBranch _ _ _ _
  | SetDefaultBranch _ _ _
  | RetargetPrs _ _ _ _ => true
  | _ => false
  end.

(** The two calls the loop makes outside of any [try]. *)
Definition isUnguarded (c : call) : bool :=
  match c with
  | GetDefaultBranch _ _
  | PullGitRepo _ _ _ => true
  | _ => false
  end.

(** The thrown values of the failed calls that satisfy [sel]. *)
Definition failuresOf (sel : call -> bool) (evs : list event) : list exn :=
  omap (fun ev =>
          match ev with
          | EvCall c (Threw e) => if sel c then Some e else None
          | _ => None
          end) evs.

(** The label in front of every recorded error. *)
Definition errorLabel (repo : Repo) : string :=
  "Error changing default branch and retargetting PRs on " +:+ org repo
  +:+ "/" +:+ name repo +:+ ":".

Definition errorMessage (repo : Repo) (e : exn) : string :=
  "Error changing default branch and retargetting PRs on " +:+ org repo
  +:+ "/" +:+ name repo +:+ ": " +:+ describe e.

(** What a run from [st] to [st'] adds to the [errors] array. *)
Definition added (st st' : State) : list string :=
  drop (length (errors st)) (errors st').

Definition nonEmpty (s : string) : bool :=
  match s with
  | "" => false
  | String _ _ => true
  end.

(** The calls a dry run may make: none that creates a branch, changes the
    default branch or retargets pull requests, and a commit-and-push only
    with its own dry-run flag set. *)
Definition respectsDryRun (c : call) : bool :=
  match c with
  | CreateNewBranch _ _ _ _
  | SetDefaultBranch _ _ _
  | RetargetPrs _ _ _ _ => false
  | CreateCommitAndPushFile _ _ _ _ isDryRun => isDryRun
  | _ => true
  end.

Definition isCommitAndPush (c : call) : bool :=
  match c with
  | CreateCommitAndPushFile _ _ _ _ _ => true
  | _ => false
  end.

(** The working copy was cloned or updated. *)
Definition isPulled (ev : event) : bool :=
  match ev with
  | EvCall (PullGitRepo _ _ _) (Returned _) => true
  | _ => false
  end.

(** The mirror-workflow step can only throw through its commit-and-push
    call. *)
Definition isFailedPush (ev : event) : bool :=
  match ev with
  | EvCall (CreateCommitAndPushFile _ _ _ _ _) (Threw _) => true
  | _ => false
  end.

(** The events that follow the first failed commit-and-push. *)
Fixpoint afterFailedPush (evs : list event) : option (list event) :=
  match evs with
  | [] => None
  | ev :: rest => if isFailedPush ev then Some rest else afterFailedPush rest
  end.

(** The line the default-branch-change step prints in a dry run. *)
Definition wouldCreateLine (newBranch oldBranch : string) : string :=
  " - Would create a new branch " +:+ newBranch +:+ " from " +:+ oldBranch
  +:+ " and retarget PRs".

(** The first thing the default-branch-change step does: print its line
    in a dry run, ask for the new branch otherwise. *)
Definition changeStepStarts (repo : Repo) (newBranch : string)
    (isDryRun : bool) (evs : list event) : Prop :=
  exists oldBranch reply,
    In (if isDryRun then EvLog (wouldCreateLine newBranch oldBranch)
        else EvCall
               (CreateNewBranch (org repo) (name repo) oldBranch newBranch)
               reply) evs.

(** What [printSummary] prints for a given error list. *)
Definition summaryLines (errs : list string) : list event :=
  match errs with
  | [] => [EvLog "Done! - No errors"]
  | _ :: _ =>
      EvLog "Finished with errors:" :: map (fun m => EvLog (" - " +:+ m)) errs
  end.

Definition extend (evs : list event) (st : State) : State :=
  {| trace := trace st ++ evs;
     errors := errors st;
     distribution := distribution st |}.

(** ** Test worlds *)

Definition slashJoin (parts : list string) : string :=
  String.concat "/" parts.

(** A stand-in for [endent] in the test worlds.  It joins the chunks and
    the values, drops a blank first line and a blank last line and removes
    the indentation the other lines share; it does nothing else to the
    values. *)
Fixpoint interleave (chunks values : list string) : string :=
  match chunks with
  | [] => ""
  | chunk :: chunks' =>
      match values with
      | [] => chunk +:+ String.concat "" chunks'
      | value :: values' => chunk +:+ value +:+ interleave chunks' values'
      end
  end.

Fixpoint splitLines (s : string) : list string :=
  match s with
  | "" => [""]
  | String c rest =>
      if Ascii.eqb c "010" then "" :: splitLines rest
      else match splitLines rest with
           | [] => [String c ""]
           | line :: lines => String c line :: lines
           end
  end.

Fixpoint indentation (s : string) : nat :=
  match s with
  | "" => 0
  | String c rest => if Ascii.eqb c " " then S (indentation rest) else 0
  end.

Fixpoint unindent (n : nat) (s : string) : string :=
  match n, s with
  | S n', String c rest => if Ascii.eqb c " " then unindent n' rest else s
  | _, _ => s
  end.

Definition isBlank (s : string) : bool :=
  Nat.eqb (indentation s) (String.length s).

Definition dropBlankEnds (lines : list string) : list string :=
  let lines :=
    match lines with
    | first :: rest => if isBlank first then rest else lines
    | [] => []
    end in
  match reverse lines with
  | last :: rest => if isBlank last then reverse rest else lines
  | [] => []
  end.

Definition dedentOnly (chunks values : list string) : string :=
  let lines := dropBlankEnds (splitLines (interleave chunks values)) in
  let indents :=
    map indentation (List.filter (fun line => negb (isBlank line)) lines) in
  let shared := foldr Nat.min (hd 0 indents) indents in
  String.concat nl (map (unindent shared) lines).

Definition showRepo (repo : Repo) : string :=
  org repo +:+ "/" +:+ name repo +:+ "@" +:+ version repo.

(** A world with one repository, [ros2/foo] pinned at [rolling], whose
    helpers answer the same way whatever the history. *)
Definition fixedWorld (branch pull : Result string) (present : bool)
    (push : Result string) (create : Result unit) : World :=
  {| w_join := slashJoin;
     w_endent := dedentOnly;
     w_toReposFile := fun repos => String.concat ";" (map showRepo repos);
     w_toDistributionFile :=
       fun d => default "" (d !! "foo");
     w_makeCacheDir := fun _ _ _ => Returns tt;
     w_downloadFile := fun _ _ _ => Returns tt;
     w_getRepos := fun _ _ => Returns [mkRepo "ros2" "foo" "..." "rolling"];
     w_getDistributionFile := fun _ _ => Returns {[ "foo" := "rolling" ]};
     w_getDefaultBranch := fun _ _ _ => branch;
     w_pullGitRepo := fun _ _ _ _ => pull;
     w_existsSync := fun _ _ => present;
     w_createCommitAndPushFile := fun _ _ _ _ _ _ => push;
     w_createNewBranch := fun _ _ _ _ _ => create;
     w_setDefaultBranch := fun _ _ _ _ => Returns tt;
     w_retargetPrs := fun _ _ _ _ _ => Returns tt;
     w_writeFileSync := fun _ _ _ => Returns tt |}.

Definition foo : Repo := mkRepo "ros2" "foo" "..." "rolling".

Definition bar : Repo := mkRepo "ros2" "bar" "https://bar" "master".

Definition emptyState : State :=
  {| trace := []; errors := []; distribution := ∅ |}.

(** ** Describing whole runs *)


(** Every helper call one iteration can make, in the order the loop body
    reaches them, for a repository whose default branch is [oldBranch]. *)
Definition iterationCalls (w : World) (newBranch reposBranch cacheDir : string)
    (isDryRun : bool) (repo : Repo) (oldBranch : string) : list call :=
  let repoPath := join w [cacheDir; reposBranch; org repo; name repo] in
  let filePath := migrationWorkflowFilePath w repoPath oldBranch newBranch in
  [GetDefaultBranch (org repo) (name repo);
   PullGitRepo (url repo) repoPath (version repo);
   ExistsSync filePath;
   CreateCommitAndPushFile repoPath filePath
     (migrationWorkflowFileContent w oldBranch newBranch)
     (mirrorCommitMessage oldBranch newBranch) isDryRun;
   CreateNewBranch (org repo) (name repo) oldBranch newBranch;
   SetDefaultBranch (org repo) (name repo) newBranch;
   RetargetPrs (org repo) (name repo) oldBranch newBranch].

(** Each failed mutation call is directly followed by its [ERROR] line. *)
Fixpoint failuresLogged (repo : Repo) (evs : list event) : Prop :=
  match evs with
  | [] => True
  | EvCall c (Threw e) :: rest =>
      (if isMutation c
       then head rest = Some (EvLog (" - ERROR: " +:+ errorMessage repo e))
       else True)
      /\ failuresLogged repo rest
  | _ :: rest => failuresLogged repo rest
  end.

(** The calls the loop body makes, as opposed to those of the set-up and
    of the final writes. *)
Definition isLoopCall (c : call) : bool :=
  match c with
  | GetDefaultBranch _ _
  | PullGitRepo _ _ _
  | ExistsSync _
  | CreateCommitAndPushFile _ _ _ _ _
  | CreateNewBranch _ _ _ _
  | SetDefaultBranch _ _ _
  | RetargetPrs _ _ _ _ => true
  | _ => false
  end.

Definition isWrite (c : call) : bool :=
  match c with
  | WriteFileSync _ _ => true
  | _ => false
  end.

Definition skipLine (repo : Repo) : event :=
  EvLog ("Skipping " +:+ org repo +:+ "/" +:+ name repo
         +:+ " since it is on the exclude list").

(** [org], [name] and [url]: what the loop never assigns. *)
Definition identity (repo : Repo) : string * string * string :=
  (org repo, name repo, url repo).


(** The five calls [makeRos2BranchesConsistent] makes before its loop. *)
Definition setupCalls (w : World) (o : Options) : list call :=
  let dir := default ".cache" (cacheDir o) in
  let reposYamlPath :=
    join w [dir; "ros2.repos." +:+ reposBranch o +:+ ".yaml"] in
  let rosDistroYamlPath :=
    join w [dir; "distribution." +:+ rosDistroDirectory o +:+ ".yaml"] in
  [MakeCacheDir dir (default false (isForceRefresh o));
   DownloadFile
     ("https://raw.githubusercontent.com/ros2/ros2/" +:+ reposBranch o
      +:+ "/ros2.repos") reposYamlPath;
   GetRepos reposYamlPath;
   DownloadFile
     ("https://raw.githubusercontent.com/ros/rosdistro/master/"
      +:+ rosDistroDirectory o +:+ "/distribution.yaml") rosDistroYamlPath;
   GetDistributionFile rosDistroYamlPath].

(** The two writes that follow the loop. *)
Definition writeRepos (w : World) (o : Options) (repos : list Repo) : call :=
  WriteFileSync
    (join w
       [default ".cache" (cacheDir o);
        "ros2.repos." +:+ reposBranch o +:+ ".output.yaml"])
    (w_toReposFile w repos).

Definition writeDistribution (w : World) (o : Options)
    (d : gmap string string) : call :=
  WriteFileSync
    (join w
       [default ".cache" (cacheDir o);
        "distribution." +:+ rosDistroDirectory o +:+ ".output.yaml"])
    (w_toDistributionFile w d).

Definition isSetup (c : call) : bool :=
  match c with
  | MakeCacheDir _ _
  | DownloadFile _ _
  | GetRepos _
  | GetDistributionFile _ => true
  | _ => false
  end.

(** [world] with every download failing. *)
Definition offline (world : World) : World :=
  {| w_join := w_join world;
     w_endent := w_endent world;
     w_toReposFile := w_toReposFile world;
     w_toDistributionFile := w_toDistributionFile world;
     w_makeCacheDir := w_makeCacheDir world;
     w_downloadFile := fun _ _ _ => Throws (ErrorObject "offline");
     w_getRepos := w_getRepos world;
     w_getDistributionFile := w_getDistributionFile world;
     w_getDefaultBranch := w_getDefaultBranch world;
     w_pullGitRepo := w_pullGitRepo world;
     w_existsSync := w_existsSync world;
     w_createCommitAndPushFile := w_createCommitAndPushFile world;
     w_createNewBranch := w_createNewBranch world;
     w_setDefaultBranch := w_setDefaultBranch world;
     w_retargetPrs := w_retargetPrs world;
     w_writeFileSync := w_writeFileSync world |}.

(** ** Tactics *)

Arguments migrationWorkflowFileContent : simpl never.
Arguments mirrorCommitMessage : simpl never.
Arguments workflowFileName : simpl never.
Arguments migrationWorkflowFilePath : simpl never.
Arguments join : simpl never.

Ltac run_step :=
  unfold bind, tryCatch, ret, logSubItemError, logSubItem, consoleLog,
    pushError, createNewBranch, setDefaultBranch, retargetPrs, existsSync,
    createCommitAndPushFile, getDefaultBranch, pullGitRepo, perform;
  simpl.

Ltac split_cases :=
  repeat match goal with
         | |- context [includes ?l ?k] => destruct (includes l k) eqn:?; simpl
         | |- context [bool_decide ?P] => case_bool_decide; simpl
         | |- context [w_getDefaultBranch ?w ?h ?o ?n] =>
             destruct (w_getDefaultBranch w h o n) eqn:?; simpl
         | |- context [w_pullGitRepo ?w ?h ?u ?p ?v] =>
             destruct (w_pullGitRepo w h u p v) eqn:?; simpl
         | |- context [w_existsSync ?w ?h ?p] =>
             destruct (w_existsSync w h p) eqn:?; simpl
         | |- context [w_createCommitAndPushFile ?w ?h ?a ?b ?c ?d ?f] =>
             destruct (w_createCommitAndPushFile w h a b c d f) eqn:?; simpl
         | |- context [negb ?b] => destruct b; simpl
         | |- context [w_createNewBranch ?w ?h ?a ?b ?c ?d] =>
             destruct (w_createNewBranch w h a b c d) eqn:?; simpl
         | |- context [w_setDefaultBranch ?w ?h ?a ?b ?c] =>
             destruct (w_setDefaultBranch w h a b c) eqn:?; simpl
         | |- context [w_retargetPrs ?w ?h ?a ?b ?c ?d] =>
             destruct (w_retargetPrs w h a b c d) eqn:?; simpl
         | |- context [@lookup _ _ (gmap string string) _ ?k ?d] =>
             destruct (@lookup _ _ (gmap string string) _ k d) eqn:?; simpl
         end.

Ltac explore_repo :=
  unfold reconcileRepo, pushMirrorWorkflow, changeDefaultBranchAndRetargetPrs,
    setDistributionVersion;
  run_step;
  split_cases.

Ltac read_run :=
  unfold emitted, added; simpl;
  rewrite <- ?app_assoc; simpl;
  rewrite ?drop_app_length, ?drop_all, ?app_nil_r; simpl.

Ltac find_in_list :=
  simpl; repeat first [left; reflexivity | right].

Ltac solve_sublist :=
  repeat first
    [ apply sublist_nil
    | apply sublist_nil_l
    | apply sublist_skip
    | apply sublist_cons ].

Ltac query_answer :=
  let b := fresh "b" in
  let Hin := fresh "Hin" in
  intros b Hin; simpl in Hin;
  repeat (destruct Hin as [Hin|Hin]; [try discriminate Hin|]);
  try contradiction;
  try (injection Hin as <-; reflexivity).

(** ** Bookkeeping lemmas *)

Lemma record_extend (ev : event) (st : State) : record ev st = extend [ev] st.
Proof. reflexivity. Qed.

Lemma extend_extend (evs1 evs2 : list event) (st : State) :
  extend evs2 (extend evs1 st) = extend (evs1 ++ evs2) st.
Proof. unfold extend; simpl. by rewrite <- (assoc_L (++)). Qed.

Lemma extend_nil (st : State) : extend [] st = st.
Proof. destruct st; unfold extend; simpl. by rewrite app_nil_r. Qed.

Lemma emitted_extend (st : State) (evs : list event) :
  emitted st (extend evs st) = evs.
Proof. unfold emitted; simpl. apply drop_app_length. Qed.

Lemma callsOf_app (evs1 evs2 : list event) :
  callsOf (evs1 ++ evs2) = callsOf evs1 ++ callsOf evs2.
Proof. apply omap_app. Qed.

Lemma failuresOf_app (sel : call -> bool) (evs1 evs2 : list event) :
  failuresOf sel (evs1 ++ evs2) = failuresOf sel evs1 ++ failuresOf sel evs2.
Proof. apply omap_app. Qed.

Lemma failuresOf_In (sel : call -> bool) (c : call) (e : exn)
    (evs : list event) :
  sel c = true -> In (EvCall c (Threw e)) evs -> In e (failuresOf sel evs).
Proof.
  intros Hsel Hin. apply list_elem_of_In. unfold failuresOf.
  apply list_elem_of_omap. exists (EvCall c (Threw e)).
  split; [by apply list_elem_of_In | by rewrite Hsel].
Qed.

Lemma emitted_app (st st' : State) (evs : list event) :
  trace st' = trace st ++ evs -> emitted st st' = evs.
Proof. unfold emitted. intros ->. apply drop_app_length. Qed.

Lemma added_app (st st' : State) (errs : list string) :
  errors st' = errors st ++ errs -> added st st' = errs.
Proof. unfold added. intros ->. apply drop_app_length. Qed.

Lemma append_assoc (s t u : string) : (s +:+ t) +:+ u = s +:+ t +:+ u.
Proof.
  induction s as [|c s IH]; [reflexivity|].
  change (String c ((s +:+ t) +:+ u) = String c (s +:+ t +:+ u)).
  by rewrite IH.
Qed.

Lemma prefix_append (s t : string) : String.prefix s (s +:+ t) = true.
Proof.
  induction s as [|c s IH]; simpl.
  - by destruct t.
  - destruct (ascii_dec c c) as [_|Hne]; [exact IH | by destruct Hne].
Qed.

Lemma errorMessage_label (repo : Repo) (e : exn) :
  String.prefix (errorLabel repo) (errorMessage repo e) = true.
Proof.
  assert (errorMessage repo e = errorLabel repo +:+ " " +:+ describe e) as ->.
  { unfold errorMessage, errorLabel. by rewrite !append_assoc. }
  apply prefix_append.
Qed.

(** ** The two guarded steps *)

Section Steps.

Variable w : World.

Lemma change_step_dry (oldBranch newBranch repoOrg repoName : string)
    (st : State) :
  changeDefaultBranchAndRetargetPrs w oldBranch newBranch repoOrg repoName
    true st
  = (Returns tt,
     extend
       [EvLog (" - Would create a new branch " +:+ newBranch +:+ " from "
               +:+ oldBranch +:+ " and retarget PRs")] st).
Proof. reflexivity. Qed.

Lemma change_step_real (oldBranch newBranch repoOrg repoName : string)
    (st : State) :
  let calls :=
    [CreateNewBranch repoOrg repoName oldBranch newBranch;
     SetDefaultBranch repoOrg repoName newBranch;
     RetargetPrs repoOrg repoName oldBranch newBranch] in
  let ok := fun c => EvCall c (Returned VVoid) in
  changeDefaultBranchAndRetargetPrs w oldBranch newBranch repoOrg repoName
    false st
  = (Returns tt,
     extend
       (map ok calls
        ++ [EvLog (" - Updated " +:+ repoOrg +:+ "/" +:+ repoName
                   +:+ " default branch from " +:+ oldBranch +:+ " to "
                   +:+ newBranch +:+ " and retargetted PRs")]) st)
  \/ exists e done c rest,
       calls = done ++ c :: rest
       /\ changeDefaultBranchAndRetargetPrs w oldBranch newBranch repoOrg
            repoName false st
          = (Throws e, extend (map ok done ++ [EvCall c (Threw e)]) st).
Proof.
  intros calls ok. unfold changeDefaultBranchAndRetargetPrs. run_step.
  destruct (w_createNewBranch w (trace st) repoOrg repoName oldBranch
              newBranch) as [[]|e] eqn:Hc; simpl.
  2:{ right. exists e, [], (CreateNewBranch repoOrg repoName oldBranch newBranch).
      eexists. split; reflexivity. }
  destruct (w_setDefaultBranch w _ repoOrg repoName newBranch)
    as [[]|e] eqn:Hs; simpl.
  2:{ right.
      exists e, [CreateNewBranch repoOrg repoName oldBranch newBranch],
        (SetDefaultBranch repoOrg repoName newBranch).
      eexists. split; [reflexivity|].
      unfold extend, record; simpl. by rewrite <- !(assoc_L (++)). }
  destruct (w_retargetPrs w _ repoOrg repoName oldBranch newBranch)
    as [[]|e] eqn:Hr; simpl.
  2:{ right.
      exists e,
        [CreateNewBranch repoOrg repoName oldBranch newBranch;
         SetDefaultBranch repoOrg repoName newBranch],
        (RetargetPrs repoOrg repoName oldBranch newBranch).
      eexists. split; [reflexivity|].
      unfold extend, record; simpl. by rewrite <- !(assoc_L (++)). }
  left. unfold extend, record; simpl. by rewrite <- !(assoc_L (++)).
Qed.

End Steps.

Section MirrorStep.

Variable w : World.

(** The mirror-workflow step, case by case on the two answers it asks
    of the world. *)
Lemma mirror_step_run (oldBranch newBranch repoPath : string)
    (isDryRun : bool) (st : State) :
  let path :=
    w_join w
      [repoPath; ".github"; "workflows";
       "mirror-" +:+ newBranch +:+ "-to-" +:+ oldBranch +:+ ".yaml"] in
  let probe := fun b => EvCall (ExistsSync path) (Returned (VBool b)) in
  let push :=
    CreateCommitAndPushFile repoPath path
      (migrationWorkflowFileContent w oldBranch newBranch)
      ("Mirror " +:+ newBranch +:+ " to " +:+ oldBranch) isDryRun in
  pushMirrorWorkflow w oldBranch newBranch repoPath isDryRun st
  = if w_existsSync w (trace st) path then
      (Returns tt,
       extend
         [probe true;
          EvLog (" - Doing nothing - Workflow file already exists: "
                 +:+ path)] st)
    else
      match
        w_createCommitAndPushFile w (trace st ++ [probe false]) repoPath path
          (migrationWorkflowFileContent w oldBranch newBranch)
          ("Mirror " +:+ newBranch +:+ " to " +:+ oldBranch) isDryRun
      with
      | Returns message =>
          (Returns tt,
           extend
             [probe false; EvCall push (Returned (VString message));
              EvLog (" - " +:+ message)] st)
      | Throws e => (Throws e, extend [probe false; EvCall push (Threw e)] st)
      end.
Proof.
  intros path probe push. unfold pushMirrorWorkflow. run_step.
  fold path. unfold migrationWorkflowFilePath, join, workflowFileName.
  fold path. unfold mirrorCommitMessage.
  destruct (w_existsSync w (trace st) path); simpl.
  - unfold extend, record; simpl. by rewrite <- !app_assoc.
  - fold push.
    destruct (w_createCommitAndPushFile w _ repoPath path _ _ isDryRun);
      simpl; unfold extend, record; simpl; by rewrite <- !app_assoc.
Qed.

End MirrorStep.

(** ** One iteration of the loop *)

Section Iteration.

Variable w : World.
Variables (newBranch reposBranch : string) (reposToExclude : list string).
Variables (cacheDir : string).

Lemma reconcileRepo_summary (isDryRun : bool) (repo : Repo) (st st' : State)
    (r : Result Repo) :
  reconcileRepo w newBranch reposBranch reposToExclude cacheDir isDryRun repo
    st = (r, st') ->
  trace st' = trace st ++ emitted st st'
  /\ errors st' = errors st ++ added st st'
  /\ added st st'
     = map (errorMessage repo) (failuresOf isMutation (emitted st st'))
  /\ match r with
     | Returns repo' =>
         failuresOf isUnguarded (emitted st st') = []
         /\ (repo' = repo \/ repo' = setVersion repo newBranch)
         /\ (includes reposToExclude (org repo +:+ "/" +:+ name repo) = false ->
             In (GetDefaultBranch (org repo) (name repo))
               (callsOf (emitted st st')))
     | Throws e =>
         added st st' = []
         /\ exists c pre,
              emitted st st' = pre ++ [EvCall c (Threw e)]
              /\ isUnguarded c = true
              /\ failuresOf (fun _ => true) pre = []
     end.
Proof.
  explore_repo; intros [= <- <-]; read_run.
  all: try (repeat split; try reflexivity; auto; try congruence; fail).
  - repeat split.
    exists (PullGitRepo (url repo)
              (join w [cacheDir; reposBranch; org repo; name repo])
              (version repo)).
    eexists [_; _]. repeat split.
  - repeat split.
    exists (GetDefaultBranch (org repo) (name repo)), []. repeat split.
Qed.

Lemma reconcileRepo_dry (repo : Repo) (st st' : State) (r : Result Repo) :
  reconcileRepo w newBranch reposBranch reposToExclude cacheDir true repo st
  = (r, st') ->
  forallb respectsDryRun (callsOf (emitted st st')) = true
  /\ forallb nonEmpty (linesOf (emitted st st')) = true
  /\ (existsb isPulled (emitted st st') = true ->
      exists oldBranch,
        In (EvLog (wouldCreateLine newBranch oldBranch)) (emitted st st')).
Proof.
  explore_repo; intros [= <- <-]; read_run.
  all: split; [reflexivity | split; [reflexivity|]].
  all: try (intros [=]; fail).
  all: intros _; eexists; unfold wouldCreateLine; find_in_list.
Qed.

Lemma reconcileRepo_isolation (isDryRun : bool) (repo : Repo)
    (st st' : State) (r : Result Repo) :
  reconcileRepo w newBranch reposBranch reposToExclude cacheDir isDryRun repo
    st = (r, st') ->
  (existsb isPulled (emitted st st') = true ->
   r = Returns (setVersion repo newBranch))
  /\ match afterFailedPush (emitted st st') with
     | Some rest =>
         changeStepStarts repo newBranch isDryRun rest
         /\ r = Returns (setVersion repo newBranch)
     | None => True
     end.
Proof.
  explore_repo; intros [= <- <-]; read_run.
  all: split; [first [reflexivity | intros [=]] |].
  all: try exact I.
  all: split; [|reflexivity].
  all: unfold changeStepStarts, wouldCreateLine.
  all: try (eexists _, (Returned VVoid); find_in_list; fail).
  all: eexists _, _; find_in_list.
Qed.

(** The whole loop: the trace and the error list only grow, every caught
    failure leaves one labelled string, and the loop is left early only
    through a failed call that no [try] guards. *)
Lemma reconcileRepos_summary (isDryRun : bool) (repos : list Repo) :
  forall (st st' : State) (r : Result (list Repo)),
    reconcileRepos w newBranch reposBranch reposToExclude cacheDir isDryRun
      repos st = (r, st') ->
    exists evs errs,
      trace st' = trace st ++ evs
      /\ errors st' = errors st ++ errs
      /\ length errs = length (failuresOf isMutation evs)
      /\ Forall
           (fun m =>
              exists repo,
                In repo repos /\ String.prefix (errorLabel repo) m = true)
           errs
      /\ match r with
         | Returns repos' =>
             length repos' = length repos
             /\ failuresOf isUnguarded evs = []
             /\ (forall repo,
                   In repo repos ->
                   includes reposToExclude (org repo +:+ "/" +:+ name repo)
                   = false ->
                   In (GetDefaultBranch (org repo) (name repo)) (callsOf evs))
         | Throws e =>
             exists c pre,
               evs = pre ++ [EvCall c (Threw e)] /\ isUnguarded c = true
         end.
Proof.
  induction repos as [|repo rest IH]; intros st st' r Hrun.
  - injection Hrun as <- <-. exists [], [].
    rewrite !app_nil_r. repeat split; auto.
  - simpl in Hrun. unfold bind in Hrun.
    destruct (reconcileRepo w newBranch reposBranch reposToExclude cacheDir
                isDryRun repo st) as [r1 st1] eqn:Hhead.
    apply reconcileRepo_summary in Hhead as (Ht1 & He1 & Ha1 & Hr1).
    assert (Hlab : Forall
              (fun m =>
                 exists repo0,
                   In repo0 (repo :: rest)
                   /\ String.prefix (errorLabel repo0) m = true)
              (added st st1)).
    { rewrite Ha1. apply Forall_forall. intros m Hm.
      apply list_elem_of_In, in_map_iff in Hm as (e & <- & _).
      exists repo. split; [by left | apply errorMessage_label]. }
    assert (Hlen1 : length (added st st1)
                    = length (failuresOf isMutation (emitted st st1))).
    { rewrite Ha1 at 1. apply length_map. }
    destruct r1 as [repo'|e].
    + destruct (reconcileRepos w newBranch reposBranch reposToExclude cacheDir
                  isDryRun rest st1) as [r2 st2] eqn:Htail.
      apply IH in Htail as (evs2 & errs2 & Ht2 & He2 & Hlen2 & Hlab2 & Hr2).
      destruct Hr1 as (Hu1 & _ & Hq1).
      assert (Hst' : st' = st2) by (destruct r2; by injection Hrun).
      subst st'.
      exists (emitted st st1 ++ evs2), (added st st1 ++ errs2).
      rewrite Ht2, Ht1, He2, He1, <- !app_assoc.
      rewrite failuresOf_app, !length_app, Hlen2, Hlen1.
      repeat split; auto.
      * apply Forall_app. split; [exact Hlab|].
        eapply Forall_impl; [exact Hlab2|].
        intros m (repo0 & Hin & Hp). exists repo0. split; [by right | done].
      * destruct r2 as [repos'|e]; injection Hrun as <-.
        -- destruct Hr2 as (Hlen & Hu2 & Hq2).
           rewrite failuresOf_app, Hu1, Hu2, callsOf_app. simpl.
           repeat split; [by rewrite Hlen|].
           intros repo0 [<-|Hin] Hex; apply in_or_app; auto.
        -- destruct Hr2 as (c & pre & -> & Hc).
           exists c, (emitted st st1 ++ pre).
           by rewrite <- app_assoc.
    + injection Hrun as <- <-.
      destruct Hr1 as (Hnone & c & pre & Hev & Hc & _).
      exists (emitted st st1), (added st st1).
      repeat split; auto.
      exists c, pre. auto.
Qed.

Lemma reconcileRepo_excluded (isDryRun : bool) (repo : Repo) (st : State) :
  includes reposToExclude (org repo +:+ "/" +:+ name repo) = true ->
  reconcileRepo w newBranch reposBranch reposToExclude cacheDir isDryRun repo
    st
  = (Returns repo,
     extend
       [EvLog ("Skipping " +:+ org repo +:+ "/" +:+ name repo
               +:+ " since it is on the exclude list")] st).
Proof. intros Hex. unfold reconcileRepo. by rewrite Hex. Qed.

Lemma reconcileRepos_excluded (isDryRun : bool) (repo : Repo)
    (repos : list Repo) :
  includes reposToExclude (org repo +:+ "/" +:+ name repo) = true ->
  forall (i : nat) (st st' : State) (repos' : list Repo),
    repos !! i = Some repo ->
    reconcileRepos w newBranch reposBranch reposToExclude cacheDir isDryRun
      repos st = (Returns repos', st') ->
    repos' !! i = Some repo.
Proof.
  intros Hex. induction repos as [|head rest IH]; intros i st st' repos' Hi Hrun.
  - by rewrite lookup_nil in Hi.
  - simpl in Hrun. unfold bind in Hrun.
    destruct (reconcileRepo w newBranch reposBranch reposToExclude cacheDir
                isDryRun head st) as [[head'|e] st1] eqn:Hhead; [|done].
    destruct (reconcileRepos w newBranch reposBranch reposToExclude cacheDir
                isDryRun rest st1) as [[rest'|e] st2] eqn:Htail; [|done].
    injection Hrun as <- <-.
    destruct i as [|i]; simpl in *.
    + injection Hi as ->.
      rewrite (reconcileRepo_excluded _ _ _ Hex) in Hhead.
      by injection Hhead as <- _.
    + eapply IH; eauto.
Qed.

(** C5.  A repository whose [org/name] is on the exclude list is skipped:
    its iteration makes no call at all, only prints the skip line, leaves
    the distribution manifest and the error list as they were and returns
    the repository record unchanged; and in the list a completed loop
    hands to the serialiser, the record at the repository's position is
    the one that was read. *)
Theorem excluded_repo_untouched (isDryRun : bool) (repo : Repo) (st : State) :
  includes reposToExclude (org repo +:+ "/" +:+ name repo) = true ->
  (exists st',
     reconcileRepo w newBranch reposBranch reposToExclude cacheDir isDryRun
       repo st = (Returns repo, st')
     /\ callsOf (emitted st st') = []
     /\ distribution st' = distribution st
     /\ errors st' = errors st)
  /\ (forall (repos repos' : list Repo) (i : nat) (st0 st1 : State),
        repos !! i = Some repo ->
        reconcileRepos w newBranch reposBranch reposToExclude cacheDir
          isDryRun repos st0 = (Returns repos', st1) ->
        repos' !! i = Some repo).
Proof.
  intros Hex. split.
  - eexists. split; [by apply reconcileRepo_excluded|].
    by rewrite emitted_extend.
  - intros repos repos' i st0 st1 Hi Hrun.
    eapply reconcileRepos_excluded; eauto.
Qed.

(** C6.  When the remote already has the target branch as its default,
    the iteration returns the repository record as it was, makes no
    mutation call, leaves the distribution manifest and the error list
    alone, and ends on a no-op line (the skip line if the repository is
    excluded, the [Doing nothing] line otherwise). *)
Theorem already_target_is_noop (isDryRun : bool) (repo : Repo) (st : State) :
  w_getDefaultBranch w (trace st) (org repo) (name repo) = Returns newBranch ->
  exists st',
    reconcileRepo w newBranch reposBranch reposToExclude cacheDir isDryRun
      repo st = (Returns repo, st')
    /\ filter (fun c => isMutation c = true) (callsOf (emitted st st')) = []
    /\ distribution st' = distribution st
    /\ errors st' = errors st
    /\ linesOf (emitted st st')
       = [if includes reposToExclude (org repo +:+ "/" +:+ name repo)
          then "Skipping " +:+ org repo +:+ "/" +:+ name repo
               +:+ " since it is on the exclude list"
          else " - Doing nothing - " +:+ org repo +:+ "/" +:+ name repo
               +:+ " already has the default branch " +:+ reposBranch].
Proof.
  intros Hquery.
  destruct (includes reposToExclude (org repo +:+ "/" +:+ name repo)) eqn:Hex.
  - eexists. split; [by apply reconcileRepo_excluded|].
    by rewrite emitted_extend.
  - unfold reconcileRepo. rewrite Hex. run_step. rewrite Hquery. simpl.
    rewrite bool_decide_eq_false_2 by (intros Hne; by apply Hne).
    simpl. eexists. split; [reflexivity|]. read_run. done.
Qed.

(** C10.  For a repository that is not excluded and whose default branch
    differs from the target, the working copy is cloned or updated right
    after the [Processing] line, with the repository's URL and pinned
    version, whatever the dry-run flag; if that call throws, the thrown
    value leaves the iteration as it is: nothing is added to the error
    list and nothing more happens for the repository. *)
Theorem pull_is_unconditional (isDryRun : bool) (repo : Repo) (st : State)
    (oldBranch : string) :
  includes reposToExclude (org repo +:+ "/" +:+ name repo) = false ->
  w_getDefaultBranch w (trace st) (org repo) (name repo) = Returns oldBranch ->
  oldBranch <> newBranch ->
  let before :=
    [EvCall (GetDefaultBranch (org repo) (name repo))
       (Returned (VString oldBranch));
     EvLog ("Processing " +:+ org repo +:+ "/" +:+ name repo)] in
  let repoPath := w_join w [cacheDir; reposBranch; org repo; name repo] in
  let answer :=
    w_pullGitRepo w (trace st ++ before) (url repo) repoPath (version repo) in
  let pull :=
    EvCall (PullGitRepo (url repo) repoPath (version repo))
      (replyOf VString answer) in
  let run :=
    reconcileRepo w newBranch reposBranch reposToExclude cacheDir isDryRun
      repo st in
  take 3 (emitted st (snd run)) = before ++ [pull]
  /\ (forall e,
        answer = Throws e ->
        fst run = Throws e
        /\ emitted st (snd run) = before ++ [pull]
        /\ added st (snd run) = []).
Proof.
  intros Hex Hquery Hne before repoPath answer pull run.
  destruct run as [r st'] eqn:Hrun. subst run. simpl.
  subst pull answer before repoPath. revert Hrun Hne.
  unfold reconcileRepo, pushMirrorWorkflow, changeDefaultBranchAndRetargetPrs,
    setDistributionVersion.
  rewrite Hex. run_step. rewrite Hquery. simpl. intros Hrun Hne. revert Hrun.
  rewrite bool_decide_eq_true_2 by done. simpl.
  rewrite <- !app_assoc. simpl. unfold join.
  destruct (w_pullGitRepo w _ (url repo) _ (version repo)) as [message|e]
    eqn:Hpull; simpl.
  - split_cases; intros [= <- <-]; read_run; by split.
  - intros [= <- <-]. read_run. split; [done|]. by intros e' [= <-].
Qed.

End Iteration.


(** ** Properties of one iteration *)

Section IterationClaims.

Variable w : World.
Variables (newBranch reposBranch : string) (reposToExclude : list string).
Variables (cacheDir : string).

(** C3.  Once the working copy is there, the iteration returns the
    repository record with its version set to the target branch and
    everything else as it was, whatever the two guarded steps did.  And if
    the mirror-workflow step throws (its commit-and-push fails), the events
    after that failure contain the start of the default-branch-change step:
    its dry-run line, or its create-branch call. *)
Theorem partial_failure_isolation (isDryRun : bool) (repo : Repo)
    (st : State) :
  let run :=
    reconcileRepo w newBranch reposBranch reposToExclude cacheDir isDryRun
      repo st in
  let evs := emitted st (snd run) in
  (existsb isPulled evs = true ->
   exists repo',
     fst run = Returns repo'
     /\ version repo' = newBranch
     /\ (org repo', name repo', url repo') = (org repo, name repo, url repo))
  /\ (forall rest,
        afterFailedPush evs = Some rest ->
        changeStepStarts repo newBranch isDryRun rest
        /\ exists repo', fst run = Returns repo' /\ version repo' = newBranch).
Proof.
  intros run evs. subst evs.
  destruct run as [r st'] eqn:Hrun. subst run.
  apply reconcileRepo_isolation in Hrun as [Hpulled Hafter]. simpl.
  split.
  - intros ->%Hpulled. by eexists.
  - intros rest Hrest. rewrite Hrest in Hafter.
    destruct Hafter as [Hstarts ->]. split; [done | by eexists].
Qed.


(** C9.  Every string an iteration adds to the error list is the same
    label, naming the repository, followed by the thrown value; the
    strings come, in order, from the failed mutation calls of the
    iteration, the commit-and-push of the mirror-workflow step included,
    so the label tells nothing about the step that failed. *)
Theorem error_label_is_shared (isDryRun : bool) (repo : Repo) (st : State) :
  let run :=
    reconcileRepo w newBranch reposBranch reposToExclude cacheDir isDryRun
      repo st in
  let label :=
    "Error changing default branch and retargetting PRs on " +:+ org repo
    +:+ "/" +:+ name repo +:+ ":" in
  added st (snd run)
  = map (fun e => label +:+ " " +:+ describe e)
      (failuresOf isMutation (emitted st (snd run)))
  /\ Forall (fun m => String.prefix label m = true) (added st (snd run))
  /\ (forall c e,
        isCommitAndPush c = true ->
        In (EvCall c (Threw e)) (emitted st (snd run)) ->
        In (label +:+ " " +:+ describe e) (added st (snd run))).
Proof.
  intros run label.
  destruct run as [r st'] eqn:Hrun. subst run.
  apply reconcileRepo_summary in Hrun as (_ & _ & Hadded & _). simpl.
  assert (Hmsg : forall e, errorMessage repo e = label +:+ " " +:+ describe e).
  { intros e. unfold errorMessage, label. by rewrite !append_assoc. }
  assert (Hmap : added st st'
                 = map (fun e => label +:+ " " +:+ describe e)
                     (failuresOf isMutation (emitted st st'))).
  { rewrite Hadded. apply map_ext. exact Hmsg. }
  repeat split; [exact Hmap | |].
  - rewrite Hmap. apply Forall_forall. intros m Hm.
    apply list_elem_of_In, in_map_iff in Hm as (e & <- & _).
    apply prefix_append.
  - intros c e Hc Hin. rewrite Hmap.
    apply (in_map (fun e => label +:+ " " +:+ describe e)).
    apply failuresOf_In with c; [by destruct c | exact Hin].
Qed.

End IterationClaims.


(** ** Properties of the two steps *)

Section StepClaims.

Variable w : World.

(** C4.  The mirror-workflow step looks for one file, whose path is
    [.github/workflows/mirror-NEW-to-OLD.yaml] under the working copy.  If
    the file is there the step makes no other call and prints the
    already-exists line.  Otherwise it asks for exactly one
    commit-and-push, of that file, with the dry-run flag handed on; the
    content is the [endent] template below applied to the new, old, new,
    old and old branch names, and the commit message is [Mirror NEW to
    OLD].  The step then prints the message it got back, or throws what
    the commit-and-push threw. *)
Theorem mirror_step_is_deterministic (oldBranch newBranch repoPath : string)
    (isDryRun : bool) (st : State) :
  let path :=
    w_join w
      [repoPath; ".github"; "workflows";
       "mirror-" +:+ newBranch +:+ "-to-" +:+ oldBranch +:+ ".yaml"] in
  let content :=
    w_endent w
      [ "
      name: Mirror ";
        " to ";
        "

      on:
        push:
          branches: [ ";
        " ]

      jobs:
        mirror-to-";
        ":
          runs-on: ubuntu-latest
          steps:
          - uses: zofrex/mirror-branch@v1
            with:
              target-branch: ";
        "
    " ]
      [newBranch; oldBranch; newBranch; oldBranch; oldBranch] in
  let commitMessage := "Mirror " +:+ newBranch +:+ " to " +:+ oldBranch in
  let push :=
    CreateCommitAndPushFile repoPath path content commitMessage isDryRun in
  let probe := fun b => EvCall (ExistsSync path) (Returned (VBool b)) in
  let run := pushMirrorWorkflow w oldBranch newBranch repoPath isDryRun st in
  let evs := emitted st (snd run) in
  if w_existsSync w (trace st) path then
    fst run = Returns tt
    /\ evs
       = [probe true;
          EvLog (" - Doing nothing - Workflow file already exists: "
                 +:+ path)]
    /\ filter (fun c => isMutation c = true) (callsOf evs) = []
  else
    match
      w_createCommitAndPushFile w (trace st ++ [probe false]) repoPath path
        content commitMessage isDryRun
    with
    | Returns message =>
        fst run = Returns tt
        /\ evs
           = [probe false; EvCall push (Returned (VString message));
              EvLog (" - " +:+ message)]
    | Throws e =>
        fst run = Throws e /\ evs = [probe false; EvCall push (Threw e)]
    end.
Proof.
  intros path content commitMessage push probe run evs.
  subst evs run. rewrite mirror_step_run.
  unfold migrationWorkflowFileContent, workflowTemplate.
  fold path. fold content. fold commitMessage.
  destruct (w_existsSync w (trace st) path).
  - simpl. rewrite emitted_extend. by repeat split.
  - fold probe.
    destruct (w_createCommitAndPushFile w _ repoPath path content
                commitMessage isDryRun);
      simpl; by rewrite emitted_extend.
Qed.

(** C7.  In a dry run the default-branch-change step makes no call and
    prints one line.  Otherwise it calls create-branch, set-default-branch
    and retarget-prs, once each and in that order, then prints its line;
    the first of them to throw ends the step with the thrown value: the
    calls before it were made once, none after it is made, none is
    repeated and nothing is printed. *)
Theorem change_step_calls (oldBranch newBranch repoOrg repoName : string)
    (st : State) :
  let calls :=
    [CreateNewBranch repoOrg repoName oldBranch newBranch;
     SetDefaultBranch repoOrg repoName newBranch;
     RetargetPrs repoOrg repoName oldBranch newBranch] in
  let ok := fun c => EvCall c (Returned VVoid) in
  let dry :=
    changeDefaultBranchAndRetargetPrs w oldBranch newBranch repoOrg repoName
      true st in
  let real :=
    changeDefaultBranchAndRetargetPrs w oldBranch newBranch repoOrg repoName
      false st in
  (fst dry = Returns tt
   /\ emitted st (snd dry)
      = [EvLog (" - Would create a new branch " +:+ newBranch +:+ " from "
                +:+ oldBranch +:+ " and retarget PRs")])
  /\ match fst real with
     | Returns _ =>
         emitted st (snd real)
         = map ok calls
           ++ [EvLog (" - Updated " +:+ repoOrg +:+ "/" +:+ repoName
                      +:+ " default branch from " +:+ oldBranch +:+ " to "
                      +:+ newBranch +:+ " and retargetted PRs")]
     | Throws e =>
         exists done c rest,
           calls = done ++ c :: rest
           /\ emitted st (snd real) = map ok done ++ [EvCall c (Threw e)]
     end.
Proof.
  intros calls ok dry real. subst dry real. split.
  - rewrite change_step_dry. simpl. by rewrite emitted_extend.
  - destruct (change_step_real w oldBranch newBranch repoOrg repoName st)
      as [-> | (e & done & c & rest & Hcalls & ->)]; simpl.
    + by rewrite emitted_extend.
    + exists done, c, rest. by rewrite emitted_extend.
Qed.

End StepClaims.

(** ** Properties of the whole batch *)

Section BatchClaims.

Variable w : World.

(** C1, as the code has it.  Over the whole loop, every failed mutation
    call (the commit-and-push of the mirror-workflow step, the three
    calls of the default-branch-change step) leaves one string in the error
    list, labelled with a repository of the batch, and never ends the
    loop.  The loop returns, with as many records as it was given and
    every repository that is not excluded queried, exactly when no
    default-branch query and no clone/update throws; when one does, the
    thrown value leaves the loop right after that call. *)
Theorem guarded_failures_stay_in_the_loop
    (newBranch reposBranch : string) (reposToExclude : list string)
    (cacheDir : string) (isDryRun : bool) (repos : list Repo) (st : State) :
  let run :=
    reconcileRepos w newBranch reposBranch reposToExclude cacheDir isDryRun
      repos st in
  let evs := emitted st (snd run) in
  let errs := added st (snd run) in
  errors (snd run) = errors st ++ errs
  /\ length errs = length (failuresOf isMutation evs)
  /\ Forall
       (fun m =>
          exists repo,
            In repo repos /\ String.prefix (errorLabel repo) m = true) errs
  /\ (failuresOf isUnguarded evs = [] <-> exists repos', fst run = Returns repos')
  /\ match fst run with
     | Returns repos' =>
         length repos' = length repos
         /\ (forall repo,
               In repo repos ->
               includes reposToExclude (org repo +:+ "/" +:+ name repo)
               = false ->
               In (GetDefaultBranch (org repo) (name repo)) (callsOf evs))
     | Throws e =>
         exists c before,
           evs = before ++ [EvCall c (Threw e)] /\ isUnguarded c = true
     end.
Proof.
  intros run evs errs. subst evs errs.
  destruct run as [r st'] eqn:Hrun. subst run.
  apply reconcileRepos_summary in Hrun
    as (evs & errs & Ht & He & Hlen & Hlab & Hr).
  simpl. rewrite (emitted_app _ _ _ Ht), (added_app _ _ _ He).
  repeat split; auto.
  - intros Hnone. destruct r as [repos'|e]; [by eexists|].
    destruct Hr as (c & before & -> & Hc).
    rewrite failuresOf_app in Hnone. simpl in Hnone. rewrite Hc in Hnone.
    by apply app_eq_nil in Hnone as [_ ?].
  - intros [repos' ->]. by destruct Hr as (_ & ? & _).
  - destruct r as [repos'|e]; [|exact Hr].
    destruct Hr as (? & _ & ?). by split.
Qed.

Lemma forEach_logSubItem (errs : list string) (st : State) :
  forEach logSubItem errs st
  = (Returns tt, extend (map (fun m => EvLog (" - " +:+ m)) errs) st).
Proof.
  revert st. induction errs as [|m errs IH]; intros st; simpl.
  - by rewrite extend_nil.
  - unfold bind, logSubItem, consoleLog. rewrite IH, record_extend.
    by rewrite extend_extend.
Qed.

Lemma printSummary_run (st : State) :
  printSummary st = (Returns tt, extend (summaryLines (errors st)) st).
Proof.
  unfold printSummary, bind, getState. case_bool_decide as Hlen.
  - unfold consoleLog. rewrite forEach_logSubItem, record_extend.
    rewrite extend_extend.
    destruct (errors st); [simpl in Hlen; lia | reflexivity].
  - destruct (errors st); [reflexivity | simpl in Hlen; lia].
Qed.

(** C8, as the code has it.  A run that returns has written both output
    files and then printed the report: the success line when the error
    list is empty, the heading and one line per recorded error otherwise.
    A run ends in failure only through a call that threw, which is then
    the last thing on the trace, and that call is never one of the two
    guarded steps: it is a set-up call, a default-branch query, a
    clone/update or one of the two writes.  Recorded errors never make the
    run fail. *)
Theorem completion_ignores_recorded_errors (o : Options) (st : State) :
  let run := makeRos2BranchesConsistent w o st in
  let dir := default ".cache" (cacheDir o) in
  match fst run with
  | Returns _ =>
      exists before repos',
        trace (snd run)
        = before
          ++ [EvCall
                (WriteFileSync
                   (w_join w
                      [dir; "ros2.repos." +:+ reposBranch o +:+ ".output.yaml"])
                   (w_toReposFile w repos'))
                (Returned VVoid);
              EvCall
                (WriteFileSync
                   (w_join w
                      [dir;
                       "distribution." +:+ rosDistroDirectory o
                       +:+ ".output.yaml"])
                   (w_toDistributionFile w (distribution (snd run))))
                (Returned VVoid)]
          ++ summaryLines (errors (snd run))
  | Throws e =>
      exists c before,
        trace (snd run) = before ++ [EvCall c (Threw e)]
        /\ isMutation c = false
        /\ (isSetup c || isUnguarded c || isWrite c) = true
  end.
Proof.
  intros run dir. destruct run as [r st'] eqn:Hrun. subst run. simpl.
  revert Hrun.
  unfold makeRos2BranchesConsistent, bind, makeCacheDir, downloadFile,
    getRepos, getDistributionFile, initLoopState, writeFileSync, getState,
    perform.
  simpl.
  destruct (w_makeCacheDir w (trace st) _ _) as [[]|e]; simpl;
    [|intros [= <- <-]; eexists _, _; by repeat split].
  destruct (w_downloadFile w _ _ _) as [[]|e]; simpl;
    [|intros [= <- <-]; eexists _, _; by repeat split].
  destruct (w_getRepos w _ _) as [repos|e]; simpl;
    [|intros [= <- <-]; eexists _, _; by repeat split].
  destruct (w_downloadFile w _ _ _) as [[]|e]; simpl;
    [|intros [= <- <-]; eexists _, _; by repeat split].
  destruct (w_getDistributionFile w _ _) as [parsed|e]; simpl;
    [|intros [= <- <-]; eexists _, _; by repeat split].
  match goal with
  | |- context [reconcileRepos ?a ?b ?c ?d ?e ?f ?g ?s] =>
      destruct (reconcileRepos a b c d e f g s) as [r1 st1] eqn:Hloop
  end.
  apply reconcileRepos_summary in Hloop as (evs & errs & Ht & He & _ & _ & Hr).
  destruct r1 as [repos'|e]; simpl.
  2:{ intros [= <- <-]. destruct Hr as (c & before & -> & Hc).
      exists c. eexists. rewrite Ht. simpl.
      repeat split; [by rewrite app_assoc | by destruct c | by destruct c]. }
  destruct (w_writeFileSync w _ _ _) as [[]|e]; simpl;
    [|intros [= <- <-]; eexists _, _; by repeat split].
  destruct (w_writeFileSync w _ _ _) as [[]|e]; simpl;
    [|intros [= <- <-]; eexists _, _; by repeat split].
  rewrite printSummary_run. intros [= <- <-]. simpl.
  exists (trace st1), repos'. unfold join. by rewrite <- !app_assoc.
Qed.

End BatchClaims.


(** ** Concrete runs *)

(** The generated workflow for [galactic] -> [rolling], in a world whose
    [endent] only removes the indentation. *)
Example workflow_for_rolling :
  migrationWorkflowFileContent
    (fixedWorld (Returns "galactic") (Returns "cloned") false
       (Returns "pushed") (Returns tt))
    "galactic" "rolling"
  = "name: Mirror rolling to galactic

on:
  push:
    branches: [ rolling ]

jobs:
  mirror-to-galactic:
    runs-on: ubuntu-latest
    steps:
    - uses: zofrex/mirror-branch@v1
      with:
        target-branch: galactic".
Proof. reflexivity. Qed.

(** The scenario of the specification: one repository already on
    [rolling]; the whole run makes no mutation call and writes the
    repository list with the version still [rolling]. *)
Example scenario_already_rolling :
  let world :=
    fixedWorld (Returns "rolling") (Returns "up to date") false
      (Returns "pushed") (Returns tt) in
  let options :=
    mkOptions "rolling" "rolling" "rolling" [] None None None in
  let run := makeRos2BranchesConsistent world options emptyState in
  fst run = Returns tt
  /\ filter (fun c => isMutation c = true) (callsOf (trace (snd run))) = []
  /\ In (WriteFileSync ".cache/ros2.repos.rolling.output.yaml"
           "ros2/foo@rolling") (callsOf (trace (snd run)))
  /\ linesOf (trace (snd run))
     = [" - Doing nothing - ros2/foo already has the default branch rolling";
        "Done! - No errors"].
Proof. vm_compute. repeat split. do 6 right. by left. Qed.

(** The dry-run scenario of the specification: default branch
    [galactic], target [rolling]. *)
Example scenario_dry_run :
  let world :=
    fixedWorld (Returns "galactic") (Returns "cloned") true
      (Returns "pushed") (Returns tt) in
  let run :=
    reconcileRepo world "rolling" "master" [] ".cache" true foo emptyState in
  fst run = Returns (mkRepo "ros2" "foo" "..." "rolling")
  /\ filter (fun c => isMutation c = true) (callsOf (trace (snd run))) = []
  /\ linesOf (trace (snd run))
     = ["Processing ros2/foo";
        " - cloned";
        " - Doing nothing - Workflow file already exists: .cache/master/ros2/foo/.github/workflows/mirror-rolling-to-galactic.yaml";
        " - Would create a new branch rolling from galactic and retarget PRs";
        " - Could not update distribution.yaml, since ros2/foo is not in the distribution.yaml"].
Proof. vm_compute. by repeat split. Qed.

(** C1, counterexample.  A default-branch query that throws, or a clone
    that throws, leaves the loop at once: nothing is added to the error
    list and the next repository, [bar], is never looked at. *)
Lemma unguarded_failure_ends_the_batch :
  reconcileRepos
    (fixedWorld (Throws (ErrorObject "rate limited")) (Returns "cloned") false
       (Returns "pushed") (Returns tt))
    "rolling" "master" [] ".cache" false [foo; bar] emptyState
  = (Throws (ErrorObject "rate limited"),
     {| trace :=
          [EvCall (GetDefaultBranch "ros2" "foo")
             (Threw (ErrorObject "rate limited"))];
        errors := [];
        distribution := ∅ |})
  /\ reconcileRepos
       (fixedWorld (Returns "galactic") (Throws (ErrorObject "clone failed"))
          false (Returns "pushed") (Returns tt))
       "rolling" "master" [] ".cache" false [foo; bar] emptyState
     = (Throws (ErrorObject "clone failed"),
        {| trace :=
             [EvCall (GetDefaultBranch "ros2" "foo")
                (Returned (VString "galactic"));
              EvLog "Processing ros2/foo";
              EvCall (PullGitRepo "..." ".cache/master/ros2/foo" "rolling")
                (Threw (ErrorObject "clone failed"))];
           errors := [];
           distribution := ∅ |}).
Proof. split; reflexivity. Qed.

(** A batch of two repositories in which every mutation call that is
    reached throws: the loop still returns both records, with four
    recorded errors. *)
Lemma guarded_failures_witness :
  let run :=
    reconcileRepos
      (fixedWorld (Returns "galactic") (Returns "cloned") false
         (Throws (ErrorObject "push rejected")) (Throws (Thrown "403")))
      "rolling" "master" [] ".cache" false [foo; bar] emptyState in
  fst run = Returns [setVersion foo "rolling"; setVersion bar "rolling"]
  /\ length (added emptyState (snd run)) = 4
  /\ length (added emptyState (snd run))
     = length (failuresOf isMutation (emitted emptyState (snd run))).
Proof.
  cbv zeta. split; [reflexivity|]. split; [reflexivity|].
  exact (proj1 (proj2
    (guarded_failures_stay_in_the_loop
       (fixedWorld (Returns "galactic") (Returns "cloned") false
          (Throws (ErrorObject "push rejected")) (Throws (Thrown "403")))
       "rolling" "master" [] ".cache" false [foo; bar] emptyState))).
Defined.



(** A run in which the commit-and-push of the mirror workflow is
    rejected: the create-branch call follows and the record is pinned to
    [rolling]. *)
Lemma partial_failure_witness :
  let run :=
    reconcileRepo
      (fixedWorld (Returns "galactic") (Returns "cloned") false
         (Throws (ErrorObject "push rejected")) (Returns tt))
      "rolling" "master" [] ".cache" false foo emptyState in
  exists rest,
    afterFailedPush (emitted emptyState (snd run)) = Some rest
    /\ changeStepStarts foo "rolling" false rest
    /\ exists repo', fst run = Returns repo' /\ version repo' = "rolling".
Proof.
  cbv zeta. eexists. split; [reflexivity|].
  exact (proj2
    (partial_failure_isolation
       (fixedWorld (Returns "galactic") (Returns "cloned") false
          (Throws (ErrorObject "push rejected")) (Returns tt))
       "rolling" "master" [] ".cache" false foo emptyState) _ eq_refl).
Defined.

Lemma excluded_repo_witness :
  exists st',
    reconcileRepo
      (fixedWorld (Returns "galactic") (Returns "cloned") false
         (Returns "pushed") (Returns tt))
      "rolling" "master" ["ros2/foo"] ".cache" false foo emptyState
    = (Returns foo, st')
    /\ callsOf (emitted emptyState st') = []
    /\ distribution st' = distribution emptyState
    /\ errors st' = errors emptyState.
Proof.
  apply (excluded_repo_untouched
           (fixedWorld (Returns "galactic") (Returns "cloned") false
              (Returns "pushed") (Returns tt))
           "rolling" "master" ["ros2/foo"] ".cache" false foo emptyState).
  vm_compute. reflexivity.
Defined.

(** The scenario of the specification, for the iteration alone. *)
Lemma already_rolling_witness :
  exists st',
    reconcileRepo
      (fixedWorld (Returns "rolling") (Returns "cloned") false
         (Returns "pushed") (Returns tt))
      "rolling" "rolling" [] ".cache" true
      (mkRepo "ros2" "foo" "..." "rolling") emptyState
    = (Returns (mkRepo "ros2" "foo" "..." "rolling"), st')
    /\ filter (fun c => isMutation c = true) (callsOf (emitted emptyState st'))
       = []
    /\ distribution st' = distribution emptyState
    /\ errors st' = errors emptyState
    /\ linesOf (emitted emptyState st')
       = [" - Doing nothing - ros2/foo already has the default branch rolling"].
Proof.
  apply (already_target_is_noop
           (fixedWorld (Returns "rolling") (Returns "cloned") false
              (Returns "pushed") (Returns tt))
           "rolling" "rolling" [] ".cache" true
           (mkRepo "ros2" "foo" "..." "rolling") emptyState).
  reflexivity.
Defined.

(** A dry run whose clone fails: the call was made, and its failure ends
    the iteration with an empty error list. *)
Lemma pull_witness :
  let run :=
    reconcileRepo
      (fixedWorld (Returns "galactic") (Throws (ErrorObject "clone failed"))
         false (Returns "pushed") (Returns tt))
      "rolling" "master" [] ".cache" true foo emptyState in
  fst run = Throws (ErrorObject "clone failed")
  /\ emitted emptyState (snd run)
     = [EvCall (GetDefaultBranch "ros2" "foo") (Returned (VString "galactic"));
        EvLog "Processing ros2/foo";
        EvCall (PullGitRepo "..." ".cache/master/ros2/foo" "rolling")
          (Threw (ErrorObject "clone failed"))]
  /\ added emptyState (snd run) = [].
Proof.
  cbv zeta.
  refine (proj2
    (pull_is_unconditional
       (fixedWorld (Returns "galactic") (Throws (ErrorObject "clone failed"))
          false (Returns "pushed") (Returns tt))
       "rolling" "master" [] ".cache" true foo emptyState "galactic"
       eq_refl eq_refl _) (ErrorObject "clone failed") eq_refl).
  discriminate.
Defined.

(** C8, counterexample.  Two runs over the same manifests, one recording
    two errors and one recording none, end the same way: both return. *)
Lemma recorded_errors_do_not_fail_the_run :
  let options :=
    mkOptions "rolling" "master" "rolling" [] None (Some false) None in
  let failing :=
    makeRos2BranchesConsistent
      (fixedWorld (Returns "galactic") (Returns "cloned") false
         (Throws (ErrorObject "push rejected")) (Throws (Thrown "403")))
      options emptyState in
  let clean :=
    makeRos2BranchesConsistent
      (fixedWorld (Returns "galactic") (Returns "cloned") false
         (Returns "pushed") (Returns tt))
      options emptyState in
  fst failing = Returns tt
  /\ errors (snd failing)
     = ["Error changing default branch and retargetting PRs on ros2/foo: push rejected";
        "Error changing default branch and retargetting PRs on ros2/foo: 403"]
  /\ fst clean = Returns tt
  /\ errors (snd clean) = [].
Proof. vm_compute. by repeat split. Qed.

(** Both steps failing with the same thrown value leave the same string
    twice. *)
Example same_label_for_both_steps :
  added emptyState
    (snd
       (reconcileRepo
          (fixedWorld (Returns "galactic") (Returns "cloned") false
             (Throws (ErrorObject "forbidden"))
             (Throws (ErrorObject "forbidden")))
          "rolling" "master" [] ".cache" false foo emptyState))
  = ["Error changing default branch and retargetting PRs on ros2/foo: forbidden";
     "Error changing default branch and retargetting PRs on ros2/foo: forbidden"].
Proof. reflexivity. Qed.

(** ** The shape of an iteration, of the loop and of a run *)


Section IterationShape.

Variable w : World.
Variables (newBranch reposBranch : string) (reposToExclude : list string).
Variables (cacheDir : string).

Lemma reconcileRepo_shape (isDryRun : bool) (repo : Repo) (st st' : State)
    (r : Result Repo) :
  reconcileRepo w newBranch reposBranch reposToExclude cacheDir isDryRun repo
    st = (r, st') ->
  length (added st st') <= 2
  /\ (exists oldBranch,
        sublist (callsOf (emitted st st'))
          (iterationCalls w newBranch reposBranch cacheDir isDryRun repo
             oldBranch)
        /\ forall b,
             In (EvCall (GetDefaultBranch (org repo) (name repo))
                   (Returned (VString b))) (emitted st st') ->
             b = oldBranch)
  /\ failuresLogged repo (emitted st st')
  /\ match r with
     | Returns repo' =>
         repo' = if existsb isPulled (emitted st st')
                 then setVersion repo newBranch else repo
     | Throws _ => True
     end.
Proof.
  explore_repo; intros [= <- <-]; read_run.
  all: split; [lia|].
  all: split;
    [first [ exists ""; split; [solve [solve_sublist] | solve [query_answer]]
           | eexists; split;
             [ unfold iterationCalls; solve [solve_sublist]
             | solve [query_answer] ] ] |].
  all: split; [repeat split | reflexivity || exact I].
Qed.

End IterationShape.


Lemma emitted_refl (st : State) : emitted st st = [].
Proof. unfold emitted. apply drop_all. Qed.

Lemma added_refl (st : State) : added st st = [].
Proof. unfold added. apply drop_all. Qed.

Lemma failuresOf_none (sel : call -> bool) (P : call -> Prop)
    (evs : list event) :
  (forall c, P c -> sel c = false) ->
  Forall P (callsOf evs) -> failuresOf sel evs = [].
Proof.
  intros Hsel. induction evs as [|ev evs IH]; [reflexivity|].
  destruct ev as [c [v|e]|line]; simpl; intros Hall.
  - apply IH. by inversion Hall.
  - inversion Hall as [|? ? Hc Hrest]; subst.
    rewrite (Hsel _ Hc). by apply IH.
  - by apply IH.
Qed.

Lemma Forall_of_sublist {A : Type} (P : A -> Prop) (l1 l2 : list A) :
  sublist l1 l2 -> Forall P l2 -> Forall P l1.
Proof.
  induction 1 as [|x l1 l2 _ IH|x l1 l2 _ IH]; intros Hall.
  - constructor.
  - inversion Hall; subst. constructor; auto.
  - inversion Hall; subst. auto.
Qed.

Section LoopShape.

Variable w : World.
Variables (newBranch reposBranch : string) (reposToExclude : list string).
Variables (cacheDir : string) (isDryRun : bool).

(** One turn of the loop, then the rest of it. *)
Lemma reconcileRepos_cons (repo : Repo) (rest : list Repo) (st st' : State)
    (r : Result (list Repo)) :
  reconcileRepos w newBranch reposBranch reposToExclude cacheDir isDryRun
    (repo :: rest) st = (r, st') ->
  exists r1 st1,
    reconcileRepo w newBranch reposBranch reposToExclude cacheDir isDryRun
      repo st = (r1, st1)
    /\ match r1 with
       | Throws e => r = Throws e /\ st' = st1
       | Returns repo' =>
           exists r2,
             reconcileRepos w newBranch reposBranch reposToExclude cacheDir
               isDryRun rest st1 = (r2, st')
             /\ emitted st st' = emitted st st1 ++ emitted st1 st'
             /\ added st st' = added st st1 ++ added st1 st'
             /\ r = match r2 with
                    | Returns rest' => Returns (repo' :: rest')
                    | Throws e => Throws e
                    end
       end.
Proof.
  intros Hrun. simpl in Hrun. unfold bind in Hrun.
  destruct (reconcileRepo w newBranch reposBranch reposToExclude cacheDir
              isDryRun repo st) as [r1 st1] eqn:Hhead.
  exists r1, st1. split; [reflexivity|].
  pose proof (reconcileRepo_summary _ _ _ _ _ _ _ _ _ _ Hhead)
    as (Ht1 & He1 & _).
  destruct r1 as [repo'|e]; [|by injection Hrun as <- <-].
  destruct (reconcileRepos w newBranch reposBranch reposToExclude cacheDir
              isDryRun rest st1) as [r2 st2] eqn:Htail.
  pose proof (reconcileRepos_summary _ _ _ _ _ _ _ _ _ _ Htail)
    as (evs2 & errs2 & Ht2 & He2 & _).
  assert (st' = st2) as -> by (destruct r2; by injection Hrun).
  exists r2. repeat split.
  - rewrite (emitted_app _ _ _ Ht2).
    apply emitted_app. by rewrite Ht2, Ht1, <- app_assoc.
  - rewrite (added_app _ _ _ He2).
    apply added_app. by rewrite He2, He1, <- app_assoc.
  - destruct r2; by injection Hrun.
Qed.

(** What holds of the calls of every iteration holds of the calls of the
    loop. *)
Lemma reconcileRepos_calls (P : call -> Prop) :
  (forall repo st st' r,
     reconcileRepo w newBranch reposBranch reposToExclude cacheDir isDryRun
       repo st = (r, st') ->
     Forall P (callsOf (emitted st st'))) ->
  forall repos st st' r,
    reconcileRepos w newBranch reposBranch reposToExclude cacheDir isDryRun
      repos st = (r, st') ->
    Forall P (callsOf (emitted st st')).
Proof.
  intros Hbody. induction repos as [|repo rest IH]; intros st st' r Hrun.
  - injection Hrun as <- <-. rewrite emitted_refl. constructor.
  - apply reconcileRepos_cons in Hrun as (r1 & st1 & Hhead & Hnext).
    apply Hbody in Hhead. destruct r1 as [repo'|e].
    + destruct Hnext as (r2 & Htail & -> & _).
      rewrite callsOf_app. apply Forall_app. split; [done|]. eauto.
    + by destruct Hnext as [_ ->].
Qed.

Lemma reconcileRepo_loop_calls (repo : Repo) (st st' : State)
    (r : Result Repo) :
  reconcileRepo w newBranch reposBranch reposToExclude cacheDir isDryRun repo
    st = (r, st') ->
  Forall (fun c => isLoopCall c = true) (callsOf (emitted st st')).
Proof.
  intros (_ & (oldBranch & Hsub & _) & _)%reconcileRepo_shape.
  apply (Forall_of_sublist _ _ _ Hsub).
  unfold iterationCalls. by repeat constructor.
Qed.

End LoopShape.

(** ** More about one iteration *)

Section IterationProperties.

Variable w : World.
Variables (newBranch reposBranch : string) (reposToExclude : list string).
Variables (cacheDir : string).

(** X1.  The calls of one iteration are taken, in order and each at most
    once, from seven: the default-branch query, the clone/update, the
    look-up of the workflow file, its commit-and-push, create-branch,
    set-default-branch and retarget-prs.  The branch they name as the old
    one is the branch the query answered. *)
Theorem iteration_calls_in_order (isDryRun : bool) (repo : Repo)
    (st : State) :
  let evs :=
    emitted st
      (snd (reconcileRepo w newBranch reposBranch reposToExclude cacheDir
              isDryRun repo st)) in
  exists oldBranch,
    sublist (callsOf evs)
      (iterationCalls w newBranch reposBranch cacheDir isDryRun repo
         oldBranch)
    /\ length (callsOf evs) <= 7
    /\ forall b,
         In (EvCall (GetDefaultBranch (org repo) (name repo))
               (Returned (VString b))) evs ->
         b = oldBranch.
Proof.
  intros evs. subst evs.
  destruct (reconcileRepo w newBranch reposBranch reposToExclude cacheDir
              isDryRun repo st) as [r st'] eqn:Hrun.
  apply reconcileRepo_shape in Hrun as (_ & (oldBranch & Hsub & Hold) & _).
  exists oldBranch. simpl. repeat split; [done | | done].
  by apply sublist_length in Hsub.
Qed.

(** X2.  Whenever a mutation call of an iteration throws, the very next
    thing the iteration does is print the [ERROR] line carrying the
    recorded message. *)
Theorem failures_are_logged_at_once (isDryRun : bool) (repo : Repo)
    (st : State) (c : call) (e : exn) (before after : list event) :
  emitted st
    (snd (reconcileRepo w newBranch reposBranch reposToExclude cacheDir
            isDryRun repo st))
  = before ++ EvCall c (Threw e) :: after ->
  isMutation c = true ->
  head after
  = Some
      (EvLog
         (" - ERROR: Error changing default branch and retargetting PRs on "
          +:+ org repo +:+ "/" +:+ name repo +:+ ": " +:+ describe e)).
Proof.
  destruct (reconcileRepo w newBranch reposBranch reposToExclude cacheDir
              isDryRun repo st) as [r st'] eqn:Hrun.
  apply reconcileRepo_shape in Hrun as (_ & _ & Hlogged & _).
  cbn [snd]. intros Hev Hc. rewrite Hev in Hlogged. clear -Hlogged Hc.
  induction before as [|[c0 [v|e0]|line] before IH]; simpl in Hlogged.
  - rewrite Hc in Hlogged. by destruct Hlogged as [-> _].
  - by apply IH.
  - apply IH. by destruct Hlogged.
  - by apply IH.
Qed.

(** X3.  One iteration adds at most two strings to the error list, and
    the whole loop at most two for each repository it was given. *)
Theorem at_most_two_errors_per_repository (isDryRun : bool)
    (repos : list Repo) (st : State) :
  (forall repo,
     length
       (added st
          (snd (reconcileRepo w newBranch reposBranch reposToExclude cacheDir
                  isDryRun repo st))) <= 2)
  /\ length
       (added st
          (snd (reconcileRepos w newBranch reposBranch reposToExclude cacheDir
                  isDryRun repos st))) <= 2 * length repos.
Proof.
  split.
  - intros repo.
    destruct (reconcileRepo w newBranch reposBranch reposToExclude cacheDir
                isDryRun repo st) as [r st'] eqn:Hrun.
    by apply reconcileRepo_shape in Hrun as (? & _).
  - revert st. induction repos as [|repo rest IH]; intros st.
    + simpl. by rewrite added_refl.
    + destruct (reconcileRepos w newBranch reposBranch reposToExclude cacheDir
                  isDryRun (repo :: rest) st) as [r st'] eqn:Hrun.
      apply reconcileRepos_cons in Hrun as (r1 & st1 & Hhead & Hnext).
      apply reconcileRepo_shape in Hhead as (Hle & _).
      destruct r1 as [repo'|e]; simpl.
      * destruct Hnext as (r2 & Htail & _ & -> & _).
        specialize (IH st1). rewrite Htail in IH. simpl in IH.
        rewrite length_app. lia.
      * destruct Hnext as [_ ->]. lia.
Qed.

(** X4.  A record leaves its iteration with the version set to the
    target branch when the working copy was cloned or updated, and
    exactly as it came otherwise.  So a loop that returns hands back the
    repositories in the order it got them, with [org], [name] and [url]
    untouched and every version either kept or set to the target. *)
Theorem loop_keeps_the_repository_list (isDryRun : bool) (repos : list Repo)
    (st : State) :
  (forall repo,
     let run :=
       reconcileRepo w newBranch reposBranch reposToExclude cacheDir isDryRun
         repo st in
     forall repo',
       fst run = Returns repo' ->
       repo' = if existsb isPulled (emitted st (snd run))
               then setVersion repo newBranch else repo)
  /\ forall repos',
       fst (reconcileRepos w newBranch reposBranch reposToExclude cacheDir
              isDryRun repos st) = Returns repos' ->
       map identity repos' = map identity repos
       /\ Forall2
            (fun repo repo' =>
               version repo' = version repo \/ version repo' = newBranch)
            repos repos'.
Proof.
  split.
  - intros repo run repo' Hret. subst run.
    destruct (reconcileRepo w newBranch reposBranch reposToExclude cacheDir
                isDryRun repo st) as [r st'] eqn:Hrun.
    apply reconcileRepo_shape in Hrun as (_ & _ & _ & Hr).
    simpl in *. by subst r.
  - revert st. induction repos as [|repo rest IH]; intros st repos' Hret.
    + injection Hret as <-. split; [reflexivity | constructor].
    + destruct (reconcileRepos w newBranch reposBranch reposToExclude cacheDir
                  isDryRun (repo :: rest) st) as [r st'] eqn:Hrun.
      simpl in Hret. subst r.
      apply reconcileRepos_cons in Hrun as (r1 & st1 & Hhead & Hnext).
      destruct r1 as [repo'|e]; [|by destruct Hnext].
      destruct Hnext as (r2 & Htail & _ & _ & Hr).
      destruct r2 as [rest'|e]; [|done]. injection Hr as ->.
      specialize (IH st1 rest'). rewrite Htail in IH.
      destruct (IH eq_refl) as [Hid Hver].
      apply reconcileRepo_summary in Hhead as (_ & _ & _ & _ & Hrepo & _).
      split.
      * simpl. rewrite Hid. f_equal. by destruct Hrepo as [->| ->].
      * constructor; [|done]. destruct Hrepo as [->| ->]; auto.
Qed.

(** X5.  When every repository of the list is on the exclude list, the
    loop makes no call: it prints one skip line per repository, in order,
    and returns the list as it got it. *)
Theorem all_excluded_is_all_skipped (isDryRun : bool) (repos : list Repo)
    (st : State) :
  Forall
    (fun repo =>
       includes reposToExclude (org repo +:+ "/" +:+ name repo) = true)
    repos ->
  reconcileRepos w newBranch reposBranch reposToExclude cacheDir isDryRun
    repos st
  = (Returns repos, extend (map skipLine repos) st).
Proof.
  intros Hall. revert st.
  induction Hall as [|repo rest Hex _ IH]; intros st; simpl.
  - by rewrite extend_nil.
  - unfold bind. rewrite (reconcileRepo_excluded _ _ _ _ _ _ _ _ Hex), IH.
    simpl. by rewrite extend_extend.
Qed.

End IterationProperties.


Section RunShape.

Variable w : World.

(** The whole run in three parts: the set-up, the loop, the writes and the
    report. *)
Lemma run_shape (o : Options) (st st' : State) (r : Result unit) :
  makeRos2BranchesConsistent w o st = (r, st') ->
  (exists e done c rest evs,
     setupCalls w o = done ++ c :: rest
     /\ callsOf evs = done
     /\ linesOf evs = []
     /\ failuresOf (fun _ => true) evs = []
     /\ r = Throws e
     /\ trace st' = trace st ++ evs ++ [EvCall c (Threw e)])
  \/ (exists evs parsed repos r1 st1 tail,
        callsOf evs = setupCalls w o
        /\ linesOf evs = []
        /\ failuresOf (fun _ => true) evs = []
        /\ reconcileRepos w (newBranch o) (reposBranch o) (reposToExclude o)
             (default ".cache" (cacheDir o)) (default true (isDryRun o)) repos
             {| trace := trace st ++ evs;
                errors := [];
                distribution := parsed |} = (r1, st1)
        /\ trace st' = trace st1 ++ tail
        /\ errors st' = errors st1
        /\ distribution st' = distribution st1
        /\ match r1 with
           | Throws e => r = Throws e /\ tail = []
           | Returns repos' =>
               let first := writeRepos w o repos' in
               let second := writeDistribution w o (distribution st1) in
               (exists e, r = Throws e /\ tail = [EvCall first (Threw e)])
               \/ (exists e,
                     r = Throws e
                     /\ tail
                        = [EvCall first (Returned VVoid);
                           EvCall second (Threw e)])
               \/ (r = Returns tt
                   /\ tail
                      = [EvCall first (Returned VVoid);
                         EvCall second (Returned VVoid)]
                        ++ summaryLines (errors st1))
           end).
Proof.
  unfold makeRos2BranchesConsistent, bind, makeCacheDir, downloadFile,
    getRepos, getDistributionFile, initLoopState, writeFileSync, getState,
    perform.
  simpl.
  destruct (w_makeCacheDir w (trace st) _ _) as [[]|e]; simpl.
  2:{ intros [= <- <-]. simpl. rewrite <- ?app_assoc. simpl. left.
      eexists e, [], _, _, []. repeat split; reflexivity. }
  destruct (w_downloadFile w _ _ _) as [[]|e]; simpl.
  2:{ intros [= <- <-]. simpl. rewrite <- ?app_assoc. simpl. left.
      eexists e, [_], _, _, [_]. repeat split; reflexivity. }
  destruct (w_getRepos w _ _) as [repos|e]; simpl.
  2:{ intros [= <- <-]. simpl. rewrite <- ?app_assoc. simpl. left.
      eexists e, [_; _], _, _, [_; _]. repeat split; reflexivity. }
  destruct (w_downloadFile w _ _ _) as [[]|e]; simpl.
  2:{ intros [= <- <-]. simpl. rewrite <- ?app_assoc. simpl. left.
      eexists e, [_; _; _], _, _, [_; _; _]. repeat split; reflexivity. }
  destruct (w_getDistributionFile w _ _) as [parsed|e]; simpl.
  2:{ intros [= <- <-]. simpl. rewrite <- ?app_assoc. simpl. left.
      eexists e, [_; _; _; _], _, _, [_; _; _; _]. repeat split; reflexivity. }
  rewrite <- !app_assoc. simpl.
  match goal with
  | |- context [reconcileRepos ?a ?b ?c ?d ?e ?f ?g ?s] =>
      destruct (reconcileRepos a b c d e f g s) as [r1 st1] eqn:Hloop
  end.
  intros Hrun. right.
  match type of Hloop with
  | reconcileRepos _ _ _ _ _ _ _ {| trace := trace st ++ ?evs |} = _ =>
      exists evs, parsed, repos, r1, st1
  end.
  destruct r1 as [repos'|e]; simpl in Hrun.
  2:{ injection Hrun as <- <-. exists []. rewrite app_nil_r.
      by repeat split. }
  revert Hrun.
  destruct (w_writeFileSync w _ _ _) as [[]|e]; simpl.
  2:{ intros [= <- <-]. eexists. repeat split; [exact Hloop|].
      left. by exists e. }
  destruct (w_writeFileSync w _ _ _) as [[]|e]; simpl.
  2:{ intros [= <- <-]. eexists. repeat split; [exact Hloop| |].
      - simpl. by rewrite <- !app_assoc.
      - right. left. by exists e. }
  rewrite printSummary_run. intros [= <- <-]. eexists.
  repeat split; [exact Hloop| |].
  - simpl. by rewrite <- !app_assoc.
  - right. right. by split.
Qed.

End RunShape.


Lemma linesOf_app (evs1 evs2 : list event) :
  linesOf (evs1 ++ evs2) = linesOf evs1 ++ linesOf evs2.
Proof. apply omap_app. Qed.

Lemma filter_none {A : Type} (P Q : A -> Prop) `{!forall x, Decision (P x)}
    (l : list A) :
  (forall x, Q x -> ~ P x) -> Forall Q l -> filter P l = [].
Proof.
  intros HPQ Hall. induction Hall as [|x l Hx _ IH]; [reflexivity|].
  rewrite filter_cons. destruct (decide (P x)) as [HP|_]; [|exact IH].
  by destruct (HPQ x Hx).
Qed.

Lemma no_failure_In (evs : list event) (c : call) (e : exn) :
  failuresOf (fun _ => true) evs = [] -> ~ In (EvCall c (Threw e)) evs.
Proof.
  intros Hnone Hin.
  apply (failuresOf_In (fun _ => true)) in Hin; [|reflexivity].
  by rewrite Hnone in Hin.
Qed.

Lemma summaryLines_no_call (errs : list string) (c : call) (r : reply) :
  ~ In (EvCall c r) (summaryLines errs).
Proof.
  destruct errs as [|m errs]; simpl.
  - by intros [[=]|[]].
  - intros [[=]|[[=]|Hin]]. by apply in_map_iff in Hin as (? & [=] & _).
Qed.

Lemma callsOf_summaryLines (errs : list string) :
  callsOf (summaryLines errs) = [].
Proof.
  destruct errs as [|m errs]; [reflexivity|]. simpl.
  induction errs as [|m' errs IH]; [reflexivity | exact IH].
Qed.

Section RunEvents.

Variable w : World.

(** What a whole run puts on the trace. *)
Lemma run_events (o : Options) (st st' : State) (r : Result unit) :
  makeRos2BranchesConsistent w o st = (r, st') ->
  (exists e done c rest evs,
     setupCalls w o = done ++ c :: rest
     /\ callsOf evs = done
     /\ linesOf evs = []
     /\ failuresOf (fun _ => true) evs = []
     /\ r = Throws e
     /\ emitted st st' = evs ++ [EvCall c (Threw e)])
  \/ (exists evs loopEvs tail r1,
        callsOf evs = setupCalls w o
        /\ linesOf evs = []
        /\ failuresOf (fun _ => true) evs = []
        /\ emitted st st' = evs ++ loopEvs ++ tail
        /\ Forall (fun c => isLoopCall c = true) (callsOf loopEvs)
        /\ (default true (isDryRun o) = true ->
            Forall (fun c => respectsDryRun c = true) (callsOf loopEvs))
        /\ match r1 with
           | Throws e => r = Throws e /\ tail = []
           | Returns repos' =>
               let first := writeRepos w o repos' in
               let second := writeDistribution w o (distribution st') in
               failuresOf isUnguarded loopEvs = []
               /\ ((exists e, r = Throws e /\ tail = [EvCall first (Threw e)])
                   \/ (exists e,
                         r = Throws e
                         /\ tail
                            = [EvCall first (Returned VVoid);
                               EvCall second (Threw e)])
                   \/ (exists errs,
                         r = Returns tt
                         /\ tail
                            = [EvCall first (Returned VVoid);
                               EvCall second (Returned VVoid)]
                              ++ summaryLines errs))
           end).
Proof.
  intros [Hfail|Hloop]%run_shape.
  - left. destruct Hfail as (e & done & c & rest & evs & ? & ? & ? & ? & ? & Ht).
    exists e, done, c, rest, evs. repeat split; auto. by apply emitted_app.
  - right.
    destruct Hloop as (evs & parsed & repos & r1 & st1 & tail & Hc & Hl & Hf
                       & Hrun & Ht & _ & Hd & Hr).
    pose proof (reconcileRepos_summary _ _ _ _ _ _ _ _ _ _ Hrun)
      as (loopEvs & errs & Ht1 & _ & _ & _ & Hr1).
    simpl in Ht1.
    assert (Hem : emitted {| trace := trace st ++ evs; errors := [];
                             distribution := parsed |} st1 = loopEvs)
      by by apply emitted_app.
    exists evs, loopEvs, tail, r1. repeat split; auto.
    + apply emitted_app. by rewrite Ht, Ht1, <- !app_assoc.
    + rewrite <- Hem.
      eapply reconcileRepos_calls; [|exact Hrun].
      intros. by eapply reconcileRepo_loop_calls.
    + intros Hdry. rewrite Hdry in Hrun. rewrite <- Hem.
      eapply reconcileRepos_calls; [|exact Hrun].
      intros repo s s' r0 Hbody.
      apply reconcileRepo_dry in Hbody as (Hcalls & _).
      apply Forall_forall. intros c Hin%list_elem_of_In.
      rewrite forallb_forall in Hcalls. by apply Hcalls.
    + destruct r1 as [repos'|e]; [|done].
      rewrite Hd. destruct Hr1 as (_ & Hung & _). split; [done|].
      destruct Hr as [?|[?|[? ?]]]; eauto.
Qed.

(** X6.  If one of the calls made before the loop (cache directory, the
    two downloads, the two parsers) throws, the run fails with the thrown
    value at once: that call is the last thing on the trace, only set-up
    calls were made before it, and nothing was printed. *)
Theorem setup_failure_is_fatal (o : Options) (st : State) (c : call)
    (e : exn) :
  let run := makeRos2BranchesConsistent w o st in
  let evs := emitted st (snd run) in
  isSetup c = true ->
  In (EvCall c (Threw e)) evs ->
  fst run = Throws e
  /\ last evs = Some (EvCall c (Threw e))
  /\ Forall (fun c' => isSetup c' = true) (callsOf evs)
  /\ linesOf evs = [].
Proof.
  intros run evs Hc Hin. subst evs.
  destruct run as [r st'] eqn:Hrun. subst run. simpl in *.
  assert (Hsetup : Forall (fun c' => isSetup c' = true) (setupCalls w o))
    by (unfold setupCalls; by repeat constructor).
  apply run_events in Hrun as [Hfail|Hloop].
  - destruct Hfail
      as (e0 & done & c0 & rest & evs & Hs & Hcs & Hl & Hf & -> & Hev).
    rewrite Hev in *. apply in_app_or in Hin as [Hin|Hin].
    { by apply no_failure_In in Hin. }
    destruct Hin as [[= <- <-]|[]].
    rewrite last_snoc, callsOf_app, linesOf_app, Hl, Hcs. simpl.
    rewrite Hs in Hsetup. apply Forall_app in Hsetup as [Hdone Hrest].
    repeat split; auto. apply Forall_app. split; [done|].
    constructor; [by inversion Hrest | constructor].
  - exfalso.
    destruct Hloop as (evs & loopEvs & tail & r1 & _ & _ & Hf & Hev & Hlc & _
                       & Hr).
    rewrite Hev in Hin. apply in_app_or in Hin as [Hin|Hin].
    { by apply no_failure_In in Hin. }
    apply in_app_or in Hin as [Hin|Hin].
    + assert (Hcin : In c (callsOf loopEvs)).
      { apply list_elem_of_In, list_elem_of_omap.
        exists (EvCall c (Threw e)). split; [by apply list_elem_of_In|done]. }
      rewrite Forall_forall in Hlc.
      apply list_elem_of_In, Hlc in Hcin. by destruct c.
    + destruct r1 as [repos'|e1].
      * destruct Hr as (_ & [(e1 & _ & ->)|[(e1 & _ & ->)|(errs & _ & ->)]]).
        -- destruct Hin as [[= <- _]|[]]. discriminate Hc.
        -- destruct Hin as [[=]|[[= <- _]|[]]]. discriminate Hc.
        -- destruct Hin as [[=]|[[=]|Hin]].
           by apply summaryLines_no_call in Hin.
      * destruct Hr as [_ ->]. destruct Hin.
Qed.

(** X7.  With the dry-run flag omitted or true, the whole run creates no
    branch, changes no default branch and retargets no pull request, and
    every commit-and-push it asks for carries the dry-run flag. *)
Theorem dry_run_is_the_default (o : Options) (st : State) :
  isDryRun o <> Some false ->
  Forall (fun c => respectsDryRun c = true)
    (callsOf (emitted st (snd (makeRos2BranchesConsistent w o st)))).
Proof.
  intros Hflag.
  assert (Hdry : default true (isDryRun o) = true).
  { destruct (isDryRun o) as [[]|]; [reflexivity | done | reflexivity]. }
  destruct (makeRos2BranchesConsistent w o st) as [r st'] eqn:Hrun. simpl.
  assert (Hsetup : Forall (fun c => respectsDryRun c = true) (setupCalls w o))
    by (unfold setupCalls; by repeat constructor).
  apply run_events in Hrun as [Hfail|Hloop].
  - destruct Hfail as (e & done & c & rest & evs & Hs & Hcs & _ & _ & _ & ->).
    rewrite callsOf_app, Hcs. simpl.
    rewrite Hs in Hsetup. apply Forall_app in Hsetup as [Hdone Hrest].
    apply Forall_app. split; [done|].
    constructor; [by inversion Hrest | constructor].
  - destruct Hloop as (evs & loopEvs & tail & r1 & Hcs & _ & _ & -> & _ & Hlc
                       & Hr).
    rewrite !callsOf_app, Hcs.
    apply Forall_app. split; [done|].
    apply Forall_app. split; [by apply Hlc|].
    destruct r1 as [repos'|e1].
    + destruct Hr as (_ & [(e1 & _ & ->)|[(e1 & _ & ->)|(errs & _ & ->)]]).
      * by repeat constructor.
      * by repeat constructor.
      * rewrite callsOf_app, callsOf_summaryLines. by repeat constructor.
    + destruct Hr as [_ ->]. constructor.
Qed.

End RunEvents.


Lemma failuresOf_weaken (sel : call -> bool) (evs : list event) :
  failuresOf (fun _ => true) evs = [] -> failuresOf sel evs = [].
Proof.
  induction evs as [|ev evs IH]; [reflexivity|].
  destruct ev as [c [v|e]|line]; simpl; try exact IH. discriminate.
Qed.

Lemma failuresOf_summaryLines (sel : call -> bool) (errs : list string) :
  failuresOf sel (summaryLines errs) = [].
Proof.
  destruct errs as [|m errs]; [reflexivity|]. simpl.
  induction errs as [|m' errs IH]; [reflexivity | exact IH].
Qed.

Section RunWrites.

Variable w : World.

(** X8.  The only files a run writes are the two output files, the
    repository list first; it writes them only after every set-up call,
    every default-branch query and every clone/update has returned, and a
    run that returns has written both. *)
Theorem outputs_are_written_after_the_loop (o : Options) (st : State) :
  let run := makeRos2BranchesConsistent w o st in
  let evs := emitted st (snd run) in
  let writes := filter (fun c => isWrite c = true) (callsOf evs) in
  exists repos',
    let first := writeRepos w o repos' in
    let second := writeDistribution w o (distribution (snd run)) in
    (writes = [] \/ writes = [first] \/ writes = [first; second])
    /\ (writes <> [] ->
        failuresOf isSetup evs = [] /\ failuresOf isUnguarded evs = [])
    /\ (fst run = Returns tt -> writes = [first; second]).
Proof.
  intros run evs writes. subst writes evs.
  destruct run as [r st'] eqn:Hrun. subst run. simpl.
  assert (Hsetup : Forall (fun c => isSetup c = true) (setupCalls w o))
    by (unfold setupCalls; by repeat constructor).
  assert (Hnw : forall l,
            Forall (fun c => isSetup c = true) l ->
            filter (fun c => isWrite c = true) l = []).
  { intros l. apply filter_none. intros c Hc. by destruct c. }
  assert (Hlw : forall l,
            Forall (fun c => isLoopCall c = true) l ->
            filter (fun c => isWrite c = true) l = []).
  { intros l. apply filter_none. intros c Hc. by destruct c. }
  apply run_events in Hrun as [Hfail|Hloop].
  - destruct Hfail as (e & done & c & rest & evs & Hs & Hcs & _ & _ & -> & ->).
    exists []. rewrite callsOf_app, Hcs. simpl.
    rewrite Hs in Hsetup.
    assert (Hdc : Forall (fun c => isSetup c = true) (done ++ [c])).
    { apply Forall_app in Hsetup as [Hdone Hrest].
      apply Forall_app. split; [done|].
      constructor; [by inversion Hrest | constructor]. }
    rewrite (Hnw _ Hdc). repeat split; try done; by left.
  - destruct Hloop as (evs & loopEvs & tail & r1 & Hcs & _ & Hf & -> & Hlc & _
                       & Hr).
    rewrite !callsOf_app, !filter_app, Hcs, (Hnw _ Hsetup), (Hlw _ Hlc).
    rewrite !failuresOf_app, !(failuresOf_weaken _ _ Hf).
    assert (Hls : failuresOf isSetup loopEvs = []).
    { apply (failuresOf_none _ (fun c => isLoopCall c = true)); [|done].
      intros c Hc. by destruct c. }
    rewrite Hls.
    simpl.
    destruct r1 as [repos'|e1].
    + exists repos'.
      destruct Hr as (Hung & [(e1 & -> & ->)|[(e1 & -> & ->)|(errs & -> & ->)]]);
        rewrite Hung, ?callsOf_app, ?failuresOf_app, ?callsOf_summaryLines,
          ?failuresOf_summaryLines; simpl.
      * repeat split; try done; by right; left.
      * repeat split; try done; by right; right.
      * repeat split; try done; by right; right.
    + exists []. destruct Hr as [-> ->]. simpl.
      repeat split; try done; by left.
Qed.

End RunWrites.

(** ** More concrete runs *)

(** A rejected push of the mirror workflow: the [ERROR] line comes right
    after it. *)
Lemma failure_logged_witness :
  let evs :=
    emitted emptyState
      (snd
         (reconcileRepo
            (fixedWorld (Returns "galactic") (Returns "cloned") false
               (Throws (ErrorObject "push rejected")) (Returns tt))
            "rolling" "master" [] ".cache" false foo emptyState)) in
  exists before c after,
    evs = before ++ EvCall c (Threw (ErrorObject "push rejected")) :: after
    /\ isMutation c = true
    /\ head after
       = Some
           (EvLog
              " - ERROR: Error changing default branch and retargetting PRs on ros2/foo: push rejected").
Proof.
  cbv zeta. eexists [_; _; _; _; _], _, _.
  split; [reflexivity|]. split; [reflexivity|].
  refine (failures_are_logged_at_once
            (fixedWorld (Returns "galactic") (Returns "cloned") false
               (Throws (ErrorObject "push rejected")) (Returns tt))
            "rolling" "master" [] ".cache" false foo emptyState
            _ (ErrorObject "push rejected") [_; _; _; _; _] _ eq_refl eq_refl).
Defined.

(** Two repositories, both on the exclude list. *)
Lemma all_excluded_witness :
  reconcileRepos
    (fixedWorld (Returns "galactic") (Returns "cloned") false
       (Returns "pushed") (Returns tt))
    "rolling" "master" ["ros2/bar"; "ros2/foo"] ".cache" false [foo; bar]
    emptyState
  = (Returns [foo; bar],
     extend
       [EvLog "Skipping ros2/foo since it is on the exclude list";
        EvLog "Skipping ros2/bar since it is on the exclude list"]
       emptyState).
Proof.
  apply (all_excluded_is_all_skipped
           (fixedWorld (Returns "galactic") (Returns "cloned") false
              (Returns "pushed") (Returns tt))
           "rolling" "master" ["ros2/bar"; "ros2/foo"] ".cache" false
           [foo; bar] emptyState).
  repeat constructor.
Defined.

(** No network: the first download throws and the run stops there. *)
Lemma setup_failure_witness :
  let run :=
    makeRos2BranchesConsistent
      (offline
         (fixedWorld (Returns "galactic") (Returns "cloned") false
            (Returns "pushed") (Returns tt)))
      (mkOptions "rolling" "master" "rolling" [] None None None) emptyState in
  fst run = Throws (ErrorObject "offline")
  /\ callsOf (emitted emptyState (snd run))
     = [MakeCacheDir ".cache" false;
        DownloadFile
          "https://raw.githubusercontent.com/ros2/ros2/master/ros2.repos"
          ".cache/ros2.repos.master.yaml"]
  /\ linesOf (emitted emptyState (snd run)) = [].
Proof.
  cbv zeta.
  destruct (setup_failure_is_fatal
              (offline
                 (fixedWorld (Returns "galactic") (Returns "cloned") false
                    (Returns "pushed") (Returns tt)))
              (mkOptions "rolling" "master" "rolling" [] None None None)
              emptyState
              (DownloadFile
                 "https://raw.githubusercontent.com/ros2/ros2/master/ros2.repos"
                 ".cache/ros2.repos.master.yaml")
              (ErrorObject "offline") eq_refl)
    as (Hfail & _ & _ & Hlines).
  - vm_compute. right. by left.
  - split; [exact Hfail|]. split; [reflexivity | exact Hlines].
Defined.

(** The flag left out: a run over [ros2/foo] makes no branch change. *)
Lemma dry_run_default_witness :
  Forall (fun c => respectsDryRun c = true)
    (callsOf
       (emitted emptyState
          (snd
             (makeRos2BranchesConsistent
                (fixedWorld (Returns "galactic") (Returns "cloned") false
                   (Returns "would push") (Returns tt))
                (mkOptions "rolling" "master" "rolling" [] None None None)
                emptyState)))).
Proof.
  apply (dry_run_is_the_default
           (fixedWorld (Returns "galactic") (Returns "cloned") false
              (Returns "would push") (Returns tt))
           (mkOptions "rolling" "master" "rolling" [] None None None)
           emptyState).
  discriminate.
Defined.
